(** * poc_agent_langfuse: the agent loop, its tool dispatch and its tools

    A shallow embedding of [tools.py] and [poc_agent_langfuse.py].

    Python values are an inductive type, dictionaries are association
    lists in insertion order, exceptions are values of an error monad
    that also threads the outside world (model endpoint, clock, random
    generator) and the trace of observations the [@observe] decorators
    record.  What the repository imports from elsewhere (the completion
    endpoint, [eval], [json], [datetime], [random], [uuid], the tracing
    client) is a field of the record [Env]. *)

From Stdlib Require Import ZArith List String Ascii Bool Arith Lia.
From Stdlib Require Import SpecFloat.
Import ListNotations.

Local Open Scope string_scope.
Local Open Scope Z_scope.

(* ===================================================================== *)
(** ** Python data *)
(* ===================================================================== *)

Module Py.

(** A requested tool call as the completion client presents it:
    [tool_call.id], [tool_call.function.name] and
    [tool_call.function.arguments]. *)
Record ToolCall := mkToolCall {
  call_id : string;
  function_name : string;
  function_arguments : string
}.

(** The types of the other objects of the model: a complex number, a
    set, a function, the ellipsis, a generator.  None of them is source
    text for [eval], a mapping, or has the methods of [str]; [json.dumps]
    encodes none of them. *)
Inductive OtherType := Complex | SetType | Function | Ellipsis | Generator.

Definition other_type_name (t : OtherType) : string :=
  match t with
  | Complex => "complex"
  | SetType => "set"
  | Function => "function"
  | Ellipsis => "ellipsis"
  | Generator => "generator"
  end.

(** Python objects the program handles.  [VFloat f] is the [float] that
    holds the IEEE 754 double [f]; [VToolCall] is the client's tool-call
    object; [VOther t] is an object of one of the types of [OtherType].
    Objects of further types ([bytes] and the other buffers, code objects)
    are outside the model. *)
#[warnings="-register-all"]
Inductive PyValue :=
| VNone
| VBool (b : bool)
| VInt (z : Z)
| VFloat (f : spec_float)
| VStr (s : string)
| VList (l : list PyValue)
| VTuple (l : list PyValue)
| VDict (d : list (string * PyValue))
| VToolCall (tc : ToolCall)
| VOther (t : OtherType).

(** A [dict] with string keys, in insertion order. *)
Definition PyDict := list (string * PyValue).

(** [d.get(k)]: the first binding of [k]. *)
Fixpoint dict_get (k : string) (d : PyDict) : option PyValue :=
  match d with
  | [] => None
  | (k', v) :: d' => if String.eqb k k' then Some v else dict_get k d'
  end.

(** [k in d]. *)
Definition dict_has (k : string) (d : PyDict) : bool :=
  match dict_get k d with Some _ => true | None => false end.

Definition dict_keys (d : PyDict) : list string := map fst d.

(** [type(v).__name__]. *)
Definition type_name_of (v : PyValue) : string :=
  match v with
  | VNone => "NoneType"
  | VBool _ => "bool"
  | VInt _ => "int"
  | VFloat _ => "float"
  | VStr _ => "str"
  | VList _ => "list"
  | VTuple _ => "tuple"
  | VDict _ => "dict"
  | VToolCall _ => "ChatCompletionMessageToolCall"
  | VOther t => other_type_name t
  end.

(** [int] and [float] objects ([bool] is kept apart). *)
Definition is_numeric (v : PyValue) : bool :=
  match v with
  | VInt _ | VFloat _ => true
  | _ => false
  end.

(** [bool(v)] for the values the program tests. *)
Definition truthy_list {A : Type} (l : option (list A)) : bool :=
  match l with
  | Some (_ :: _) => true
  | _ => false
  end.

Definition of_opt_str (s : option string) : PyValue :=
  match s with Some s => VStr s | None => VNone end.

(** An instance of [Exception]: its class and [str(e)].  Exceptions that
    derive from [BaseException] only (interrupts, interpreter exit) are
    outside the model. *)
Record PyExn := mkExn {
  exn_class : string;
  exn_text : string
}.

(** The result of a Python call: a value, or a raised exception. *)
Inductive outcome (A : Type) :=
| Returned (a : A)
| Raised (e : PyExn).
Arguments Returned {A} a.
Arguments Raised {A} e.

(** [s.lower()] on ASCII letters; other bytes are left as they are. *)
Definition lower_ascii (c : ascii) : ascii :=
  let n := nat_of_ascii c in
  if (Nat.leb 65 n && Nat.leb n 90)%bool then ascii_of_nat (n + 32) else c.

Fixpoint lower (s : string) : string :=
  match s with
  | EmptyString => EmptyString
  | String c s' => String (lower_ascii c) (lower s')
  end.

(** [needle in haystack] for strings. *)
Fixpoint contains (needle haystack : string) : bool :=
  if String.prefix needle haystack then true
  else match haystack with
       | EmptyString => false
       | String _ rest => contains needle rest
       end.

(** The first object inside [v] that [json.dumps] rejects with its default
    encoder, in encoding order.  [None], [bool], [float], [str], an [int]
    of at most 4300 decimal digits (the interpreter's limit on the text of
    an integer) and lists, tuples and dicts of such are accepted. *)
Fixpoint json_reject (v : PyValue) : option PyValue :=
  let fix first (l : list PyValue) : option PyValue :=
    match l with
    | [] => None
    | x :: l' => match json_reject x with Some r => Some r | None => first l' end
    end in
  let fix first_item (d : list (string * PyValue)) : option PyValue :=
    match d with
    | [] => None
    | kv :: d' =>
        match json_reject (snd kv) with Some r => Some r | None => first_item d' end
    end in
  match v with
  | VNone | VBool _ | VFloat _ | VStr _ => None
  | VInt z => if Z.ltb (Z.abs z) (10 ^ 4300) then None else Some v
  | VList l | VTuple l => first l
  | VDict d => first_item d
  | VToolCall _ | VOther _ => Some v
  end.

Definition json_serializable (v : PyValue) : bool :=
  match json_reject v with None => true | Some _ => false end.

End Py.
Export Py.

(* ===================================================================== *)
(** ** The outside world and the monad of effects *)
(* ===================================================================== *)

(** An observation recorded by an [@observe] decorator. *)
Inductive ObsType := AGENT | TOOL | SPAN.

Record Observation := mkObs {
  obs_type : ObsType;
  obs_name : string
}.

(** [response.choices[0]]: its [finish_reason], and the [content] and
    [tool_calls] of its [message]. *)
Record Response := mkResponse {
  finish_reason : string;
  content : option string;
  tool_calls : option (list ToolCall)
}.

(** The keyword arguments [call_llm] passes to
    [client.chat.completions.create]; [tools] and [tool_choice] are present
    only when a tool list was given. *)
Record Request := mkRequest {
  req_model : string;
  req_messages : list PyDict;
  req_tools : option (list PyValue * string)
}.

(** [datetime.now()]: the object's [isoformat()] and [strftime]. *)
Record DateTime := mkDateTime {
  isoformat : string;
  strftime : string -> string
}.

(** What the program imports from outside the repository.  Each field is
    a function: a call that never comes back is outside the model. *)
Record Env := mkEnv {
  World : Type;
  (** [client.chat.completions.create], called with the request's fields *)
  chat_completions_create : Request -> World -> outcome Response * World;
  (** [datetime.now()] *)
  datetime_now : World -> DateTime * World;
  (** the draw behind [random.choice]: an index for a sequence of length [n] *)
  randbelow : nat -> World -> nat * World;
  (** [str(uuid.uuid4())] *)
  uuid4_str : World -> string * World;
  (** [eval(expression, {"__builtins__": {}})] *)
  py_eval : string -> outcome PyValue;
  (** [json.loads] *)
  json_loads : string -> outcome PyValue;
  (** the text [json.dumps] produces for an object it accepts *)
  json_encode : PyValue -> string;
  (** [langfuse.get_trace_url()] and [langfuse.get_current_trace_id()] *)
  get_trace_url : World -> PyValue;
  get_current_trace_id : World -> PyValue
}.

(** The state a run threads: the world and the observations so far,
    oldest first. *)
Record State (W : Type) := mkState {
  world : W;
  trace : list Observation
}.
Arguments mkState {W} world trace.
Arguments world {W} s.
Arguments trace {W} s.

Module Eff.

Definition M (W A : Type) : Type := State W -> outcome A * State W.

Definition ret {W A} (a : A) : M W A := fun st => (Returned a, st).

Definition bind {W A B} (c : M W A) (k : A -> M W B) : M W B :=
  fun st =>
    match c st with
    | (Returned a, st') => k a st'
    | (Raised e, st') => (Raised e, st')
    end.

(** [raise e] *)
Definition raise {W A} (e : PyExn) : M W A := fun st => (Raised e, st).

(** [try: c  except Exception as e: handler e] *)
Definition try_except {W A} (c : M W A) (handler : PyExn -> M W A) : M W A :=
  fun st =>
    match c st with
    | (Returned a, st') => (Returned a, st')
    | (Raised e, st') => handler e st'
    end.

(** A call that cannot touch the state. *)
Definition lift {W A} (o : outcome A) : M W A := fun st => (o, st).

(** A call on the world that cannot raise. *)
Definition ask {W A} (f : W -> A * W) : M W A :=
  fun st => let (a, w) := f (world st) in (Returned a, mkState w (trace st)).

(** A fallible call on the world. *)
Definition request {W A} (f : W -> outcome A * W) : M W A :=
  fun st => let (o, w) := f (world st) in (o, mkState w (trace st)).

(** A read of the world. *)
Definition peek {W A} (f : W -> A) : M W A :=
  fun st => (Returned (f (world st)), st).

(** Entering a function decorated with [@observe]. *)
Definition observe {W} (t : ObsType) (name : string) : M W unit :=
  fun st => (Returned tt, mkState (world st) (trace st ++ [mkObs t name])%list).

End Eff.
Import Eff.

Declare Scope py_scope.
Delimit Scope py_scope with py.
Notation "x <- c ;; k" := (bind c (fun x => k))
  (at level 61, c at next level, right associativity) : py_scope.
Notation "c ;;; k" := (bind c (fun _ => k))
  (at level 61, right associativity) : py_scope.
Local Open Scope py_scope.

(** How many observations of type [t] a trace holds. *)
Definition obs_is (t : ObsType) (o : Observation) : bool :=
  match t, obs_type o with
  | AGENT, AGENT | TOOL, TOOL | SPAN, SPAN => true
  | _, _ => false
  end.

Definition count_obs (t : ObsType) (tr : list Observation) : nat :=
  List.length (filter (obs_is t) tr).

Definition count_named (name : string) (tr : list Observation) : nat :=
  List.length (filter (fun o => String.eqb (obs_name o) name) tr).

(* ===================================================================== *)
(** ** tools.py *)
(* ===================================================================== *)

Module Tools.

Section WithEnv.

Context (E : Env).

Local Abbreviation W := (World E).

(** [calculate(expression)]: [eval] without builtins inside [try], every
    exception turned into a failure dictionary.  [eval] raises [TypeError]
    on an object that is not source text; of the objects of the model only
    a [str] is. *)
Definition calculate (expression : PyValue) : PyDict :=
  let evaluated :=
    match expression with
    | VStr s => py_eval E s
    | _ => Raised (mkExn "TypeError"
                     "eval() arg 1 must be a string, bytes or code object")
    end in
  match evaluated with
  | Returned result =>
      [("success", VBool true); ("expression", expression); ("result", result)]
  | Raised e =>
      [("success", VBool false); ("expression", expression);
       ("error", VStr (exn_text e))]
  end.

(** [get_current_time(timezone)]: the clock is read once; [timezone] is
    echoed and not otherwise used. *)
Definition get_current_time (timezone : PyValue) : M W PyDict :=
  now <- ask (datetime_now E) ;;
  ret [("success", VBool true);
       ("timezone", timezone);
       ("datetime", VStr (isoformat now));
       ("date", VStr (strftime now "%Y-%m-%d"));
       ("time", VStr (strftime now "%H:%M:%S"));
       ("formatted", VStr (strftime now "%B %d, %Y at %I:%M:%S %p"))].

(** The [facts] table of [get_random_fact]. *)
Definition facts : list (string * list string) :=
  [("general",
    ["Honey never spoils. Archaeologists have found 3000-year-old honey in Egyptian tombs that was still edible.";
     "A group of flamingos is called a 'flamboyance'.";
     "Bananas are berries, but strawberries aren't.";
     "The shortest war in history lasted 38 minutes between Britain and Zanzibar in 1896."]);
   ("science",
    ["Water can boil and freeze at the same time in a phenomenon called the triple point.";
     "A single bolt of lightning contains enough energy to toast 100,000 slices of bread.";
     "Your body contains about 37.2 trillion cells.";
     "Sound travels 4.3 times faster in water than in air."]);
   ("history",
    ["Cleopatra lived closer in time to the moon landing than to the construction of the Great Pyramid.";
     "Oxford University is older than the Aztec Empire.";
     "The Great Wall of China is not visible from space with the naked eye.";
     "Nintendo was founded in 1889 as a playing card company."]);
   ("tech",
    ["The first computer mouse was made of wood in 1964.";
     "The first 1GB hard drive weighed over 500 pounds and cost $40,000 in 1980.";
     "Email existed before the World Wide Web.";
     "The first webcam was created to monitor a coffee pot at Cambridge University."])].

(** [facts.get(category)] *)
Fixpoint facts_get (category : string) (table : list (string * list string))
  : option (list string) :=
  match table with
  | [] => None
  | (k, l) :: table' =>
      if String.eqb category k then Some l else facts_get category table'
  end.

(** [random.choice(seq)]: [IndexError] on an empty sequence, else the
    element at the drawn index. *)
Definition random_choice (seq : list string) : M W string :=
  match seq with
  | [] => raise (mkExn "IndexError" "Cannot choose from an empty sequence")
  | x :: _ =>
      i <- ask (randbelow E (List.length seq)) ;;
      ret (nth (i mod List.length seq) seq x)
  end.

(** [get_random_fact(category)].  [category.lower()] raises
    [AttributeError] on an object without that method; of the objects of
    the model only a [str] has it. *)
Definition get_random_fact (category : PyValue) : M W PyDict :=
  category <- match category with
              | VStr s => ret (lower s)
              | v => raise (mkExn "AttributeError"
                              ("'" ++ type_name_of v
                                   ++ "' object has no attribute 'lower'"))
              end ;;
  let category :=
    match facts_get category facts with
    | Some _ => category
    | None => "general"
    end in
  seq <- match facts_get category facts with
         | Some l => ret l
         | None => raise (mkExn "KeyError" ("'" ++ category ++ "'"))
         end ;;
  fact <- random_choice seq ;;
  ret [("success", VBool true);
       ("category", VStr category);
       ("fact", VStr fact)].

(** The keyword arguments the [@observe] wrapper takes for itself: it
    removes them from the call before it calls the function it wraps. *)
Definition observe_keywords : list string :=
  ["langfuse_trace_id"; "langfuse_parent_observation_id"; "langfuse_public_key"].

(** The keyword arguments the wrapper passes on. *)
Definition passed_on (kwargs : PyDict) : PyDict :=
  filter (fun kv => negb (existsb (String.eqb (fst kv)) observe_keywords)) kwargs.

(** Binding of the keyword arguments [kwargs] that reach a tool to its one
    parameter [param], which may have a default. *)
Definition bind_kwargs (fname param : string) (default : option PyValue)
    (kwargs : PyDict) : outcome PyValue :=
  match find (fun kv => negb (String.eqb (fst kv) param)) kwargs with
  | Some (k, _) =>
      Raised (mkExn "TypeError"
                (fname ++ "() got an unexpected keyword argument '" ++ k ++ "'"))
  | None =>
      match dict_get param kwargs, default with
      | Some v, _ => Returned v
      | None, Some v => Returned v
      | None, None =>
          Raised (mkExn "TypeError"
                    (fname ++ "() missing 1 required positional argument: '"
                           ++ param ++ "'"))
      end
  end.

(** A tool as the registry holds it: the decorated function, called with
    keyword arguments.  The wrapper records the observation and takes its
    own keywords out, then the remaining arguments are bound. *)
Definition ToolFunction : Type := PyDict -> M W PyDict.

Definition decorated (fname param : string) (default : option PyValue)
    (body : PyValue -> M W PyDict) : ToolFunction :=
  fun kwargs =>
    observe TOOL fname ;;;
    v <- lift (bind_kwargs fname param default (passed_on kwargs)) ;;
    body v.

(** [TOOL_FUNCTIONS] *)
Definition TOOL_FUNCTIONS : list (string * ToolFunction) :=
  [("calculate",
    decorated "calculate" "expression" None (fun v => ret (calculate v)));
   ("get_current_time",
    decorated "get_current_time" "timezone" (Some (VStr "UTC")) get_current_time);
   ("get_random_fact",
    decorated "get_random_fact" "category" (Some (VStr "general")) get_random_fact)].

(** A JSON-Schema property of type string. *)
Definition string_property (extra : PyDict) : PyValue :=
  VDict (("type", VStr "string") :: extra).

Definition tool_definition (name description : string)
    (properties : PyDict) (required : list PyValue) : PyValue :=
  VDict [("type", VStr "function");
         ("function",
          VDict [("name", VStr name);
                 ("description", VStr description);
                 ("parameters",
                  VDict [("type", VStr "object");
                         ("properties", VDict properties);
                         ("required", VList required)])])].

(** [TOOL_DEFINITIONS] *)
Definition TOOL_DEFINITIONS : list PyValue :=
  [tool_definition "calculate"
     ("Evaluates a mathematical expression and returns the result. Supports basic arithmetic operations: addition (+), subtraction (-), multiplication ("
        ++ "*), division (/), and parentheses.")
     [("expression",
       string_property
         [("description",
           VStr "The mathematical expression to evaluate (e.g., '25 * 4', '(100 + 50) / 2')")])]
     [VStr "expression"];
   tool_definition "get_current_time"
     "Gets the current date and time. Returns datetime in various formats including ISO format, date, time, and human-readable format."
     [("timezone",
       string_property
         [("description",
           VStr "The timezone name (default: UTC). For this POC, only UTC is supported.");
          ("default", VStr "UTC")])]
     [];
   tool_definition "get_random_fact"
     "Returns a random interesting fact from a predefined collection. Facts are categorized by topic."
     [("category",
       string_property
         [("description", VStr "The category of fact to retrieve");
          ("enum", VList [VStr "general"; VStr "science"; VStr "history"; VStr "tech"]);
          ("default", VStr "general")])]
     []].

End WithEnv.

End Tools.

(* ===================================================================== *)
(** ** poc_agent_langfuse.py *)
(* ===================================================================== *)

Module Agent.

Section WithEnv.

Context (E : Env).

Local Abbreviation W := (World E).

(** [call_llm(messages, tools, tool_choice)]: [tools] and [tool_choice]
    are passed on only when [tools] is a non-empty list; an exception of
    the endpoint is not handled here. *)
Definition call_llm (messages : list PyDict) (tools : option (list PyValue))
    (tool_choice : string) : M W Response :=
  observe AGENT "call_llm" ;;;
  let kwargs :=
    mkRequest "gpt-4o-mini" messages
      (match tools with
       | Some (t :: ts) => Some (t :: ts, tool_choice)
       | _ => None
       end) in
  response <- request (chat_completions_create E kwargs) ;;
  ret response.

(** [TOOL_FUNCTIONS.get(tool_name)] *)
Fixpoint registry_get (tool_name : string)
    (registry : list (string * Tools.ToolFunction E))
  : option (Tools.ToolFunction E) :=
  match registry with
  | [] => None
  | (k, f) :: registry' =>
      if String.eqb tool_name k then Some f else registry_get tool_name registry'
  end.

(** [tool_function] called with [tool_arguments] unpacked as keyword
    arguments: the unpacking raises [TypeError] when [tool_arguments] is
    not a mapping, and names the function with its module, [tools]. *)
Definition call_unpacked (tool_name : string) (tool_function : Tools.ToolFunction E)
    (tool_arguments : PyValue) : M W PyDict :=
  match tool_arguments with
  | VDict kwargs => tool_function kwargs
  | v => raise (mkExn "TypeError"
                  ("tools." ++ tool_name
                     ++ "() argument after ** must be a mapping, not "
                     ++ type_name_of v))
  end.

(** [execute_tool(tool_name, tool_arguments)] *)
Definition execute_tool (tool_name : string) (tool_arguments : PyValue)
  : M W PyDict :=
  observe SPAN "execute_tool" ;;;
  match registry_get tool_name (Tools.TOOL_FUNCTIONS E) with
  | None =>
      ret [("success", VBool false);
           ("error", VStr ("Unknown tool: " ++ tool_name))]
  | Some tool_function =>
      try_except
        (result <- call_unpacked tool_name tool_function tool_arguments ;;
         ret result)
        (fun e =>
           ret [("success", VBool false);
                ("error", VStr ("Tool execution failed: " ++ exn_text e))])
  end.

(** [json.dumps(obj)] *)
Definition json_dumps (obj : PyValue) : outcome string :=
  match json_reject obj with
  | None => Returned (json_encode E obj)
  | Some (VInt _) =>
      Raised (mkExn "ValueError"
                "Exceeds the limit (4300 digits) for integer string conversion; use sys.set_int_max_str_digits() to increase the limit")
  | Some r =>
      Raised (mkExn "TypeError"
                ("Object of type " ++ type_name_of r ++ " is not JSON serializable"))
  end.

Definition system_prompt : string :=
  "You are a helpful AI assistant with access to tools. 
Use the available tools when needed to answer user questions accurately.
When you have enough information to answer the user's question, always be accurate. If you don't know the answer, say so.".

(** The dictionary appended for the assistant's reply. *)
Definition assistant_entry (response : Response) : PyDict :=
  [("role", VStr "assistant");
   ("content", of_opt_str (content response));
   ("tool_calls",
    match tool_calls response with
    | Some calls => VList (map VToolCall calls)
    | None => VNone
    end)].

(** The dictionary appended for the result of one tool call. *)
Definition tool_entry (tool_call : ToolCall) (text : string) : PyDict :=
  [("role", VStr "tool");
   ("tool_call_id", VStr (call_id tool_call));
   ("name", VStr (function_name tool_call));
   ("content", VStr text)].

(** The body of [for tool_call in assistant_message.tool_calls]: decode the
    arguments, execute the tool, append the serialised result. *)
Fixpoint run_tool_calls (calls : list ToolCall) (messages : list PyDict)
  : M W (list PyDict) :=
  match calls with
  | [] => ret messages
  | tool_call :: rest =>
      let tool_name := function_name tool_call in
      tool_arguments <- lift (json_loads E (function_arguments tool_call)) ;;
      tool_result <- execute_tool tool_name tool_arguments ;;
      text <- lift (json_dumps (VDict tool_result)) ;;
      run_tool_calls rest (messages ++ [tool_entry tool_call text])%list
  end.

(** [finish_reason == "tool_calls" and assistant_message.tool_calls] *)
Definition wants_tools (response : Response) : bool :=
  String.eqb (finish_reason response) "tool_calls"
  && truthy_list (tool_calls response).

Definition requested_calls (response : Response) : list ToolCall :=
  match tool_calls response with Some calls => calls | None => [] end.

Definition success_result (final_answer : PyValue) (iteration : Z)
    (trace_url trace_id : PyValue) (session_id : string) : PyDict :=
  [("success", VBool true);
   ("answer", final_answer);
   ("iterations", VInt iteration);
   ("trace_url", trace_url);
   ("trace_id", trace_id);
   ("session_id", VStr session_id)].

Definition failure_result (iteration : Z) (trace_url trace_id : PyValue)
    (session_id : string) : PyDict :=
  [("success", VBool false);
   ("error", VStr "Maximum iterations reached without conclusive answer");
   ("iterations", VInt iteration);
   ("trace_url", trace_url);
   ("trace_id", trace_id);
   ("session_id", VStr session_id)].

(** How one pass through the body of the [while] loop ends: with
    [continue] or by falling off the end of the body, or with [return]. *)
Inductive Step :=
| Continue (messages : list PyDict)
| Return (result : PyDict) (messages : list PyDict).

(** The body of the [while] loop after [iteration += 1]. *)
Definition loop_body (session_id : string) (iteration : Z)
    (messages : list PyDict) : M W Step :=
  response <- call_llm messages (Some Tools.TOOL_DEFINITIONS) "auto" ;;
  let messages := (messages ++ [assistant_entry response])%list in
  if wants_tools response then
    messages <- run_tool_calls (requested_calls response) messages ;;
    ret (Continue messages)
  else if String.eqb (finish_reason response) "stop" then
    let final_answer := of_opt_str (content response) in
    trace_id <- peek (get_current_trace_id E) ;;
    trace_url <- peek (get_trace_url E) ;;
    ret (Return (success_result final_answer iteration trace_url trace_id session_id)
                messages)
  else
    ret (Continue messages).

(** [while iteration < max_iterations], started at [iteration = 0]:
    [rounds_left] is [max_iterations - iteration], so the test holds
    exactly when [rounds_left] is not zero (see [loop_guard]).  The loop
    returns the result together with the conversation at that point. *)
Fixpoint agent_loop (session_id : string) (rounds_left : nat) (iteration : Z)
    (messages : list PyDict) : M W (PyDict * list PyDict) :=
  match rounds_left with
  | O =>
      trace_url <- peek (get_trace_url E) ;;
      trace_id <- peek (get_current_trace_id E) ;;
      ret (failure_result iteration trace_url trace_id session_id, messages)
  | S rounds_left' =>
      let iteration := iteration + 1 in
      step <- loop_body session_id iteration messages ;;
      match step with
      | Continue messages => agent_loop session_id rounds_left' iteration messages
      | Return result messages => ret (result, messages)
      end
  end.

Definition initial_messages (user_query : string) : list PyDict :=
  [[("role", VStr "system"); ("content", VStr system_prompt)];
   [("role", VStr "user"); ("content", VStr user_query)]].

(** [run_agent] up to its [return], with the conversation as it then is.
    [langfuse.update_current_trace] only annotates the trace. *)
Definition run_agent_conversation (user_query user_id : string)
    (session_id : option string) (max_iterations : Z)
  : M W (PyDict * list PyDict) :=
  observe SPAN "run_agent" ;;;
  session_id <- match session_id with
                | Some s => ret s
                | None => u <- ask (uuid4_str E) ;; ret (substring 0 8 u)
                end ;;
  agent_loop session_id (Z.to_nat max_iterations) 0 (initial_messages user_query).

(** [run_agent(user_query, user_id, session_id, max_iterations)] *)
Definition run_agent (user_query user_id : string)
    (session_id : option string) (max_iterations : Z) : M W PyDict :=
  r <- run_agent_conversation user_query user_id session_id max_iterations ;;
  ret (fst r).

End WithEnv.

End Agent.

(* ===================================================================== *)
(** ** A reference for [eval] on arithmetic and string literals *)
(* ===================================================================== *)

(** What Python's [eval] does on a fragment of its expression language:
    decimal integer and floating-point literals, plain string literals,
    the operators [+ - * /] with unary signs, and parentheses, in source
    texts of at most a hundred characters.  Numbers are computed as the
    interpreter computes them: [int] exactly, [float] in IEEE 754 double
    precision, rounding to nearest, ties to even.  The reference is
    partial: [None] means the text (or an operation on strings it needs)
    is outside the fragment, not that [eval] fails. *)
Module PyEval.

Inductive token :=
| TInt (z : Z)
| TFloat (f : spec_float)
| TStr (s : string)
| TPlus | TMinus | TStar | TSlash | TLParen | TRParen.

Inductive expr :=
| EInt (z : Z)
| EFloat (f : spec_float)
| EStr (s : string)
| ENeg (e : expr)
| EPos (e : expr)
| EAdd (a b : expr)
| ESub (a b : expr)
| EMul (a b : expr)
| EDiv (a b : expr).

(** *** Double precision *)

Definition prec : Z := 53.
Definition emax : Z := 1024.

Definition is_infinite (f : spec_float) : bool :=
  match f with S754_infinity _ => true | _ => false end.

Definition is_zero (f : spec_float) : bool :=
  match f with S754_zero _ => true | _ => false end.

(** The double nearest to [n / d], with the sign given, for positive [n]
    and [d]; infinite when the quotient is too large. *)
Definition nearest_ratio (negative : bool) (n d : Z) : spec_float :=
  let '(q, e, l) := SFdiv_core_binary prec emax n 0 d 0 in
  binary_round_aux prec emax negative q e l.

(** The double nearest to the integer [z]; infinite when [z] is too large. *)
Definition nearest_int (z : Z) : spec_float :=
  binary_normalize prec emax z 0 false.

(** The value of a floating-point literal: [digits] times ten to the power
    [scale], rounded to the nearest double. *)
Definition float_literal (digits scale : Z) : spec_float :=
  if Z.eqb digits 0 then S754_zero false
  else if Z.leb 0 scale then nearest_int (digits * 10 ^ scale)
  else nearest_ratio false digits (10 ^ (- scale)).

(** *** Tokens *)

Definition is_digit (c : ascii) : bool :=
  let n := nat_of_ascii c in (Nat.leb 48 n && Nat.leb n 57)%bool.

Definition digit_value (c : ascii) : Z := Z.of_nat (nat_of_ascii c - 48).

(** A character a plain string literal may hold: printable ASCII other
    than the backslash. *)
Definition plain_char (c : ascii) : bool :=
  let n := nat_of_ascii c in
  (Nat.leb 32 n && Nat.leb n 126 && negb (Nat.eqb n 92))%bool.

Definition is_quote (c : ascii) : bool :=
  let n := nat_of_ascii c in (Nat.eqb n 39 || Nat.eqb n 34)%bool.

(** The longest run of digits at the head of [s], read in base ten. *)
Fixpoint lex_digits (acc : Z) (s : string) : Z * string :=
  match s with
  | String c r =>
      if is_digit c then lex_digits (10 * acc + digit_value c) r else (acc, s)
  | EmptyString => (acc, s)
  end.

(** The digits after the point: they extend the digits read so far, and
    are counted. *)
Fixpoint lex_fraction (acc count : Z) (s : string) : Z * Z * string :=
  match s with
  | String c r =>
      if is_digit c then lex_fraction (10 * acc + digit_value c) (count + 1) r
      else (acc, count, s)
  | EmptyString => (acc, count, s)
  end.

Definition starts_with_digit (s : string) : bool :=
  match s with String c _ => is_digit c | EmptyString => false end.

(** An exponent at the head of [s]: [e] or [E], an optional sign and at
    least one digit.  Without one the exponent is zero and nothing is
    read. *)
Definition lex_exponent (s : string) : option Z * string :=
  match s with
  | String c r =>
      if (Ascii.eqb c "e" || Ascii.eqb c "E")%bool then
        match r with
        | String sign r' =>
            if Ascii.eqb sign "+" then
              if starts_with_digit r'
              then let (x, rest) := lex_digits 0 r' in (Some x, rest)
              else (None, s)
            else if Ascii.eqb sign "-" then
              if starts_with_digit r'
              then let (x, rest) := lex_digits 0 r' in (Some (- x), rest)
              else (None, s)
            else if is_digit sign
              then let (x, rest) := lex_digits 0 r in (Some x, rest)
              else (None, s)
        | EmptyString => (None, s)
        end
      else (None, s)
  | EmptyString => (None, s)
  end.

(** A number at the head of [s], which starts with a digit, or with a
    point and a digit.  With a point or an exponent the literal is a
    [float]; otherwise it is an [int], and one with a leading zero is read
    only when it is zero. *)
Definition lex_number (s : string) : option (token * string) :=
  let (whole, r) := lex_digits 0 s in
  match r with
  | String "." r' =>
      let '(digits, count, r'') := lex_fraction whole 0 r' in
      match lex_exponent r'' with
      | (Some x, rest) => Some (TFloat (float_literal digits (x - count)), rest)
      | (None, rest) => Some (TFloat (float_literal digits (- count)), rest)
      end
  | _ =>
      match lex_exponent r with
      | (Some x, rest) => Some (TFloat (float_literal whole x), rest)
      | (None, rest) =>
          match s with
          | String "0" _ => if Z.eqb whole 0 then Some (TInt whole, rest) else None
          | _ => Some (TInt whole, rest)
          end
      end
  end.

(** The body of a string literal up to the closing [quote]. *)
Fixpoint lex_string (quote : ascii) (s : string) : option (string * string) :=
  match s with
  | EmptyString => None
  | String c r =>
      if Ascii.eqb c quote then Some (EmptyString, r)
      else if plain_char c then
        match lex_string quote r with
        | Some (body, rest) => Some (String c body, rest)
        | None => None
        end
      else None
  end.

Definition cons_token (t : token) (ts : option (list token))
  : option (list token) :=
  match ts with Some l => Some (t :: l) | None => None end.

(** Tokens of [s]; blanks separate tokens. *)
Fixpoint lex (fuel : nat) (s : string) : option (list token) :=
  match s with
  | EmptyString => Some []
  | String c r =>
      match fuel with
      | O => None
      | S fuel' =>
          if Ascii.eqb c " " then lex fuel' r
          else if (is_digit c || (Ascii.eqb c "." && starts_with_digit r))%bool then
            match lex_number s with
            | Some (t, rest) => cons_token t (lex fuel' rest)
            | None => None
            end
          else if is_quote c then
            match lex_string c r with
            | Some (body, rest) => cons_token (TStr body) (lex fuel' rest)
            | None => None
            end
          else if Ascii.eqb c "+" then cons_token TPlus (lex fuel' r)
          else if Ascii.eqb c "-" then cons_token TMinus (lex fuel' r)
          else if Ascii.eqb c "*" then cons_token TStar (lex fuel' r)
          else if Ascii.eqb c "/" then cons_token TSlash (lex fuel' r)
          else if Ascii.eqb c "(" then cons_token TLParen (lex fuel' r)
          else if Ascii.eqb c ")" then cons_token TRParen (lex fuel' r)
          else None
      end
  end.

(** *** Syntax *)

Definition parser : Type := list token -> option (expr * list token).

(** atom: a literal or a parenthesised expression *)
Definition parse_atom (parse_inner : parser) : parser :=
  fun ts =>
    match ts with
    | TInt z :: r => Some (EInt z, r)
    | TFloat f :: r => Some (EFloat f, r)
    | TStr s :: r => Some (EStr s, r)
    | TLParen :: r =>
        match parse_inner r with
        | Some (e, TRParen :: r') => Some (e, r')
        | _ => None
        end
    | _ => None
    end.

(** factor: signs bind tighter than [*] and [/] *)
Fixpoint parse_factor (parse_inner : parser) (n : nat) : parser :=
  fun ts =>
    match ts, n with
    | TMinus :: r, S n' =>
        match parse_factor parse_inner n' r with
        | Some (e, r') => Some (ENeg e, r')
        | None => None
        end
    | TPlus :: r, S n' =>
        match parse_factor parse_inner n' r with
        | Some (e, r') => Some (EPos e, r')
        | None => None
        end
    | (TMinus | TPlus) :: _, O => None
    | _, _ => parse_atom parse_inner ts
    end.

(** term: factors joined by [*] and [/], to the left *)
Fixpoint term_rest (factor : parser) (n : nat) (lhs : expr)
    (ts : list token) : option (expr * list token) :=
  match ts, n with
  | TStar :: r, S n' =>
      match factor r with
      | Some (e, r') => term_rest factor n' (EMul lhs e) r'
      | None => None
      end
  | TSlash :: r, S n' =>
      match factor r with
      | Some (e, r') => term_rest factor n' (EDiv lhs e) r'
      | None => None
      end
  | (TStar | TSlash) :: _, O => None
  | _, _ => Some (lhs, ts)
  end.

(** expression: terms joined by [+] and [-], to the left *)
Fixpoint expr_rest (term : parser) (n : nat) (lhs : expr)
    (ts : list token) : option (expr * list token) :=
  match ts, n with
  | TPlus :: r, S n' =>
      match term r with
      | Some (e, r') => expr_rest term n' (EAdd lhs e) r'
      | None => None
      end
  | TMinus :: r, S n' =>
      match term r with
      | Some (e, r') => expr_rest term n' (ESub lhs e) r'
      | None => None
      end
  | (TPlus | TMinus) :: _, O => None
  | _, _ => Some (lhs, ts)
  end.

Fixpoint parse_expr (fuel : nat) : parser :=
  fun ts =>
    match fuel with
    | O => None
    | S fuel' =>
        let factor := parse_factor (parse_expr fuel') (List.length ts) in
        let term : parser :=
          fun ts' =>
            match factor ts' with
            | Some (e, r) => term_rest factor (List.length r) e r
            | None => None
            end in
        match term ts with
        | Some (e, r) => expr_rest term (List.length r) e r
        | None => None
        end
    end.

(** The expression a source text of at most a hundred characters denotes. *)
Definition parse (s : string) : option expr :=
  if Nat.ltb 100 (String.length s) then None
  else
    match lex (String.length s) s with
    | Some ts =>
        match parse_expr (S (List.length ts)) ts with
        | Some (e, []) => Some e
        | _ => None
        end
    | None => None
    end.

(** *** Values *)

Definition ZeroDivisionError : PyExn :=
  mkExn "ZeroDivisionError" "division by zero".

Definition FloatZeroDivisionError : PyExn :=
  mkExn "ZeroDivisionError" "float division by zero".

Inductive operator := Add | Sub | Mul | Div.

(** [float(z)] for an [int]: the nearest double, [OverflowError] when
    there is none. *)
Definition float_of_int (z : Z) : outcome spec_float :=
  let f := nearest_int z in
  if is_infinite f
  then Raised (mkExn "OverflowError" "int too large to convert to float")
  else Returned f.

(** [a / b] on [int]: true division, the quotient of the integers rounded
    once. *)
Definition true_div (a b : Z) : outcome PyValue :=
  if Z.eqb b 0 then Raised ZeroDivisionError
  else
    let negative := xorb (Z.ltb a 0) (Z.ltb b 0) in
    if Z.eqb a 0 then Returned (VFloat (S754_zero negative))
    else
      let f := nearest_ratio negative (Z.abs a) (Z.abs b) in
      if is_infinite f
      then Raised (mkExn "OverflowError"
                     "integer division result too large for a float")
      else Returned (VFloat f).

(** An operator on two [int] objects. *)
Definition int_op (op : operator) (x y : Z) : outcome PyValue :=
  match op with
  | Add => Returned (VInt (x + y))
  | Sub => Returned (VInt (x - y))
  | Mul => Returned (VInt (x * y))
  | Div => true_div x y
  end.

(** An operator on two [float] objects: only a division by zero raises. *)
Definition float_op (op : operator) (x y : spec_float) : outcome PyValue :=
  match op with
  | Add => Returned (VFloat (SFadd prec emax x y))
  | Sub => Returned (VFloat (SFsub prec emax x y))
  | Mul => Returned (VFloat (SFmul prec emax x y))
  | Div =>
      if is_zero y then Raised FloatZeroDivisionError
      else Returned (VFloat (SFdiv prec emax x y))
  end.

(** An operator on two numbers: with a [float] on either side the [int]
    on the other is converted first.  Operands that are not numbers are
    outside the fragment. *)
Definition apply_operator (op : operator) (a b : PyValue)
  : option (outcome PyValue) :=
  match a, b with
  | VInt x, VInt y => Some (int_op op x y)
  | VInt x, VFloat g =>
      Some match float_of_int x with
           | Returned f => float_op op f g
           | Raised e => Raised e
           end
  | VFloat f, VInt y =>
      Some match float_of_int y with
           | Returned g => float_op op f g
           | Raised e => Raised e
           end
  | VFloat f, VFloat g => Some (float_op op f g)
  | _, _ => None
  end.

(** A binary operator on the outcomes of its operands, the left operand
    first. *)
Definition binary (op : operator)
    (a b : option (outcome PyValue)) : option (outcome PyValue) :=
  match a with
  | Some (Raised x) => Some (Raised x)
  | Some (Returned x) =>
      match b with
      | Some (Raised y) => Some (Raised y)
      | Some (Returned y) => apply_operator op x y
      | None => None
      end
  | None => None
  end.

(** A sign in front of a number; [negative] tells which. *)
Definition apply_sign (negative : bool) (a : PyValue) : option PyValue :=
  match a with
  | VInt x => Some (VInt (if negative then - x else x))
  | VFloat f => Some (VFloat (if negative then SFopp f else f))
  | _ => None
  end.

Definition unary (negative : bool) (a : option (outcome PyValue))
  : option (outcome PyValue) :=
  match a with
  | Some (Raised x) => Some (Raised x)
  | Some (Returned x) =>
      match apply_sign negative x with
      | Some v => Some (Returned v)
      | None => None
      end
  | None => None
  end.

Fixpoint eval_expr (e : expr) : option (outcome PyValue) :=
  match e with
  | EInt z => Some (Returned (VInt z))
  | EFloat f => Some (Returned (VFloat f))
  | EStr s => Some (Returned (VStr s))
  | ENeg a => unary true (eval_expr a)
  | EPos a => unary false (eval_expr a)
  | EAdd a b => binary Add (eval_expr a) (eval_expr b)
  | ESub a b => binary Sub (eval_expr a) (eval_expr b)
  | EMul a b => binary Mul (eval_expr a) (eval_expr b)
  | EDiv a b => binary Div (eval_expr a) (eval_expr b)
  end.

(** What [eval] does on [s], where the reference says. *)
Definition reference (s : string) : option (outcome PyValue) :=
  match parse s with
  | Some e => eval_expr e
  | None => None
  end.


(** [E]'s [eval] agrees with the reference wherever the reference says. *)
Definition agrees (E : Env) : Prop :=
  forall s r, reference s = Some r -> py_eval E s = r.

End PyEval.

(* ===================================================================== *)
(** ** A scripted world for examples *)
(* ===================================================================== *)

(** A test double of the outside world, as the mocks of a test suite
    would set it up: the endpoint plays back a script of replies, the
    clock and the random generator are fixed, [eval] is the reference
    above and [json.loads] knows the argument texts of the examples. *)
Module Scripted.

Definition world : Type := list (outcome Response).

(** The next reply of the script; a connection error once it is used up. *)
Definition create (_ : Request) (w : world) : outcome Response * world :=
  match w with
  | [] => (Raised (mkExn "APIConnectionError" "Connection error."), [])
  | r :: w' => (r, w')
  end.

Definition clock : DateTime :=
  mkDateTime "2026-01-27T13:21:04.000000" (fun format => format).

(** Outside the reference's fragment the double reports a syntax error. *)
Definition eval (s : string) : outcome PyValue :=
  match PyEval.reference s with
  | Some r => r
  | None => Raised (mkExn "SyntaxError" "invalid syntax")
  end.

Definition quoted (s : string) : string :=
  String (ascii_of_nat 34) s ++ String (ascii_of_nat 34) EmptyString.

(** The JSON texts the examples use, with what they decode to. *)
Definition known_json : list (string * PyValue) :=
  [("{}", VDict []);
   ("[]", VList []);
   ("{" ++ quoted "expression" ++ ": " ++ quoted "25 * 4" ++ "}",
    VDict [("expression", VStr "25 * 4")]);
   ("{" ++ quoted "expression" ++ ": " ++ quoted "1/0" ++ "}",
    VDict [("expression", VStr "1/0")]);
   ("{" ++ quoted "category" ++ ": 5}",
    VDict [("category", VInt 5)])].

(** [json.loads] on the known texts; the empty text, which is not JSON,
    and every text the double does not know raise the decoder's error. *)
Definition loads (s : string) : outcome PyValue :=
  match dict_get s known_json with
  | Some v => Returned v
  | None =>
      Raised (mkExn "JSONDecodeError"
                "Expecting value: line 1 column 1 (char 0)")
  end.

Definition env : Env :=
  mkEnv world create
    (fun w => (clock, w))
    (fun _ w => (O, w))
    (fun w => ("123e4567-e89b-12d3-a456-426614174000", w))
    eval
    loads
    (fun v => "<" ++ type_name_of v ++ ">")
    (fun _ => VStr "https://cloud.langfuse.com/trace/t1")
    (fun _ => VStr "t1").

(** The state of a run that starts with [script] still to be played. *)
Definition start (script : world) : State world := mkState script [].

(** A final reply. *)
Definition says (text : string) : outcome Response :=
  Returned (mkResponse "stop" (Some text) None).

(** A reply that requests tool calls. *)
Definition asks (calls : list ToolCall) : outcome Response :=
  Returned (mkResponse "tool_calls" None (Some calls)).

(** A reply cut off by the token limit, with no tool call. *)
Definition truncated (text : string) : outcome Response :=
  Returned (mkResponse "length" (Some text) None).

Definition call_time : ToolCall := mkToolCall "call_1" "get_current_time" "{}".

Definition call_unknown : ToolCall := mkToolCall "call_2" "send_email" "{}".

(** A call whose argument text is empty, hence not JSON. *)
Definition call_no_arguments : ToolCall :=
  mkToolCall "call_3" "get_current_time" "".

Definition call_fact_5 : ToolCall :=
  mkToolCall "call_4" "get_random_fact" ("{" ++ quoted "category" ++ ": 5}").

End Scripted.

(* ===================================================================== *)
(** ** Vocabulary of the properties *)
(* ===================================================================== *)

Module Spec.

Section WithEnv.

Context (E : Env).

Local Abbreviation W := (World E).

(** The request [call_llm] sends for a conversation. *)
Definition llm_request (messages : list PyDict) : Request :=
  mkRequest "gpt-4o-mini" messages (Some (Tools.TOOL_DEFINITIONS, "auto")).

(** [st] with one more observation. *)
Definition logged (t : ObsType) (name : string) (st : State W) : State W :=
  mkState (world st) (trace st ++ [mkObs t name])%list.

(** The state after a model call made in [st] left the world as [w]. *)
Definition after_reply (w : W) (st : State W) : State W :=
  mkState w (trace st ++ [mkObs AGENT "call_llm"])%list.

(** The session identifier [run_agent] uses and the state in which its
    loop starts. *)
Definition resolve_session (session_id : option string) (st : State W)
  : string * State W :=
  match session_id with
  | Some s => (s, logged SPAN "run_agent" st)
  | None =>
      let (u, w) := uuid4_str E (world st) in
      (substring 0 8 u, mkState w (trace st ++ [mkObs SPAN "run_agent"])%list)
  end.

(** Every call of the round decodes its argument text and serialises its
    tool result, the calls being executed in order from [st]. *)
Fixpoint round_ok (calls : list ToolCall) (st : State W) : bool :=
  match calls with
  | [] => true
  | tool_call :: rest =>
      match json_loads E (function_arguments tool_call) with
      | Raised _ => false
      | Returned tool_arguments =>
          match Agent.execute_tool E (function_name tool_call) tool_arguments st with
          | (Returned tool_result, st') =>
              json_serializable (VDict tool_result) && round_ok rest st'
          | (Raised _, _) => false
          end
      end
  end.

(** The tool messages for [calls] with contents [texts], in order. *)
Definition tool_entries (calls : list ToolCall) (texts : list string)
  : list PyDict :=
  map (fun p => Agent.tool_entry (fst p) (snd p)) (combine calls texts).

Definition role_is (r : string) (m : PyDict) : bool :=
  match dict_get "role" m with
  | Some (VStr r') => String.eqb r' r
  | _ => false
  end.

(** The [tool_call_id] of a message. *)
Definition tool_call_id_of (m : PyDict) : option string :=
  match dict_get "tool_call_id" m with
  | Some (VStr i) => Some i
  | _ => None
  end.

Definition ids_of (calls : list PyValue) : list string :=
  flat_map (fun v => match v with VToolCall tc => [call_id tc] | _ => [] end)
           calls.

(** The call identifiers an assistant message emits. *)
Definition emitted_ids (m : PyDict) : list string :=
  if role_is "assistant" m then
    match dict_get "tool_calls" m with
    | Some (VList calls) => ids_of calls
    | _ => []
    end
  else [].

(** Every tool message of [messages] carries an identifier that is in
    [seen] or that an assistant message before it emitted. *)
Fixpoint correlated (seen : list string) (messages : list PyDict) : bool :=
  match messages with
  | [] => true
  | m :: rest =>
      (if role_is "tool" m then
         match tool_call_id_of m with
         | Some i => existsb (String.eqb i) seen
         | None => false
         end
       else true)
      && correlated (seen ++ emitted_ids m) rest
  end.


(** The loop, entered with [n] rounds left, gets to the head of the loop
    with [n'] rounds left: every pass in between ended without [return]
    and without an exception. *)
Inductive reaches (session_id : string)
  : nat -> Z -> list PyDict -> State W
    -> nat -> Z -> list PyDict -> State W -> Prop :=
| reaches_here : forall n iteration messages st,
    reaches session_id n iteration messages st n iteration messages st
| reaches_pass : forall n iteration messages st messages1 st1 n' iteration' messages' st',
    Agent.loop_body E session_id (iteration + 1) messages st
      = (Returned (Agent.Continue messages1), st1) ->
    reaches session_id n (iteration + 1) messages1 st1 n' iteration' messages' st' ->
    reaches session_id (S n) iteration messages st n' iteration' messages' st'.

(** For [rounds] passes from [st] on, every reply of the model requests
    tool calls, every one of which decodes and serialises. *)
Fixpoint always_tools (rounds : nat) (messages : list PyDict) (st : State W)
  : Prop :=
  match rounds with
  | O => True
  | S rounds' =>
      exists response w',
        chat_completions_create E (llm_request messages) (world st)
          = (Returned response, w')
        /\ Agent.wants_tools response = true
        /\ round_ok (Agent.requested_calls response) (after_reply w' st) = true
        /\ forall messages' st',
             Agent.run_tool_calls E (Agent.requested_calls response)
               (messages ++ [Agent.assistant_entry response])%list
               (after_reply w' st)
             = (Returned messages', st') ->
             always_tools rounds' messages' st'
  end.

(** A computation that makes no model call: it leaves the number of
    [AGENT] observations as it found it, however it ends. *)
Definition quiet {A : Type} (c : M W A) : Prop :=
  forall st o st',
    c st = (o, st') ->
    count_obs AGENT (trace st') = count_obs AGENT (trace st).

(** The keys of the [facts] table. *)
Definition fixed_categories : list string :=
  ["general"; "science"; "history"; "tech"].

(** The category [get_random_fact] settles on for a requested one. *)
Definition chosen_category (category : string) : string :=
  if existsb (String.eqb (lower category)) fixed_categories
  then lower category
  else "general".

Definition success_of (expression : string) (result : PyValue) : PyDict :=
  [("success", VBool true); ("expression", VStr expression); ("result", result)].

Definition failure_of (expression : string) (e : PyExn) : PyDict :=
  [("success", VBool false); ("expression", VStr expression);
   ("error", VStr (exn_text e))].


(** The two shapes of result the specification gives [run_agent]. *)
Definition is_success_shape (result : PyDict) : Prop :=
  dict_get "success" result = Some (VBool true)
  /\ dict_has "answer" result = true
  /\ dict_has "error" result = false.

Definition is_failure_shape (result : PyDict) : Prop :=
  dict_get "success" result = Some (VBool false)
  /\ dict_has "error" result = true
  /\ dict_has "answer" result = false.

End WithEnv.

End Spec.

(* ===================================================================== *)
(** ** The script's entry point, and vocabulary for further properties *)
(* ===================================================================== *)

Module Main.

Section WithEnv.

Context (E : Env).

Local Abbreviation W := (World E).

(** [user_prompts] of the [__main__] block. *)
Definition user_prompts : list string :=
  ["What is 25 multiplied by 4?";
   "What time is it right now? Also, can you calculate what 100 divided by 5 is?";
   "Tell me an interesting science fact, then calculate how many hours are in a week (7 * 24)."].

(** [d[k]]: [KeyError] when the key is missing. *)
Definition subscript (d : PyDict) (k : string) : outcome PyValue :=
  match dict_get k d with
  | Some v => Returned v
  | None => Raised (mkExn "KeyError" ("'" ++ k ++ "'"))
  end.

(** [randint(0, len(seq) - 1)] followed by [seq[index]], for a sequence
    with first element [x]. *)
Definition pick (x : string) (seq : list string) : M W string :=
  i <- ask (randbelow E (List.length seq)) ;;
  ret (nth (i mod List.length seq) seq x).

(** The [__main__] block: a prompt is drawn, the agent is run with its
    default arguments, and six fields of the result and the result itself
    are printed.  The computation returns the values printed, in order;
    the fixed banner lines are left out. *)
Definition main : M W (list PyValue) :=
  prompt <- pick "What is 25 multiplied by 4?" user_prompts ;;
  result <- Agent.run_agent E prompt "test_user" None 10 ;;
  success <- lift (subscript result "success") ;;
  answer <- lift (subscript result "answer") ;;
  iterations <- lift (subscript result "iterations") ;;
  trace_url <- lift (subscript result "trace_url") ;;
  trace_id <- lift (subscript result "trace_id") ;;
  session_id <- lift (subscript result "session_id") ;;
  ret [success; answer; iterations; trace_url; trace_id; session_id; VDict result].

(** A computation that records no observation selected by [p]. *)
Definition keeps (p : Observation -> bool) {A : Type} (c : M W A) : Prop :=
  forall st o st',
    c st = (o, st') -> filter p (trace st') = filter p (trace st).

(** A computation that records no observation at all. *)
Definition silent {A : Type} (c : M W A) : Prop :=
  forall st o st', c st = (o, st') -> trace st' = trace st.

Definition named (name : string) (o : Observation) : bool :=
  String.eqb (obs_name o) name.

(** The parameter of a registered tool. *)
Definition parameter_of (tool_name : string) : string :=
  if String.eqb tool_name "calculate" then "expression"
  else if String.eqb tool_name "get_current_time" then "timezone"
  else "category".

(** The tool names of the registry. *)
Definition registered (tool_name : string) : bool :=
  existsb (String.eqb tool_name)
    ["calculate"; "get_current_time"; "get_random_fact"].

(** Arguments a registered tool cannot be called with: not a mapping, or
    with a keyword that is neither the tool's parameter nor one the
    [@observe] wrapper takes, or, for [calculate], without its required
    parameter. *)
Definition ill_formed (tool_name : string) (tool_arguments : PyValue) : bool :=
  match tool_arguments with
  | VDict kwargs =>
      existsb (fun kv => negb (String.eqb (fst kv) (parameter_of tool_name)))
              (Tools.passed_on kwargs)
      || (String.eqb tool_name "calculate"
          && negb (dict_has "expression" (Tools.passed_on kwargs)))
  | _ => true
  end.

(** The observations [execute_tool] records: its own span, and the
    tool's when a registered tool is called with a mapping. *)
Definition dispatch_observations (tool_name : string)
    (tool_arguments : PyValue) : list Observation :=
  mkObs SPAN "execute_tool"
  :: match tool_arguments with
     | VDict _ => if registered tool_name then [mkObs TOOL tool_name] else []
     | _ => []
     end.

(** A reply of the assistant or a tool message. *)
Definition reply_or_tool (m : PyDict) : bool :=
  (Spec.role_is "assistant" m || Spec.role_is "tool" m)%bool.

(** The last message of a conversation. *)
Definition last_message (messages : list PyDict) : option PyDict :=
  last (map Some messages) None.

End WithEnv.

(** A scripted world whose [eval] also knows the imaginary literal [1j]:
    a complex number, which [json.dumps] does not encode. *)
Definition eval_with_complex (s : string) : outcome PyValue :=
  if String.eqb s "1j" then Returned (VOther Complex) else Scripted.eval s.

Definition loads_with_complex (s : string) : outcome PyValue :=
  if String.eqb s ("{" ++ Scripted.quoted "expression" ++ ": "
                       ++ Scripted.quoted "1j" ++ "}")
  then Returned (VDict [("expression", VStr "1j")])
  else Scripted.loads s.

Definition env_with_complex : Env :=
  mkEnv Scripted.world Scripted.create
    (fun w => (Scripted.clock, w))
    (fun _ w => (O, w))
    (fun w => ("123e4567-e89b-12d3-a456-426614174000", w))
    eval_with_complex
    loads_with_complex
    (fun v => "<" ++ type_name_of v ++ ">")
    (fun _ => VStr "https://cloud.langfuse.com/trace/t1")
    (fun _ => VStr "t1").

Definition call_complex : ToolCall :=
  mkToolCall "call_5" "calculate"
    ("{" ++ Scripted.quoted "expression" ++ ": " ++ Scripted.quoted "1j" ++ "}").

End Main.

(* ===================================================================== *)
(** ** test_poc_agent_langfuse.py: inspect_trace *)
(* ===================================================================== *)

Module TraceInspection.

(** An observation as the tracing service returns it: [obs.id], and
    [obs.type] and [obs.name] where the object has them. *)
Record ApiObservation := mkApiObservation {
  api_id : string;
  api_type : option string;
  api_name : option string
}.

(** A fetched trace: its [observations], where the object has them. *)
Record ApiTrace := mkApiTrace {
  api_observations : option (list ApiObservation)
}.

(** What [inspect_trace] uses from outside: [langfuse.api.trace.get] and
    [time.sleep]. *)
Record Service := mkService {
  Remote : Type;
  trace_get : string -> Remote -> outcome ApiTrace * Remote;
  sleep : Z -> Remote -> Remote
}.

(** An entry of [llm_calls] or [tool_calls]. *)
Record Entry := mkEntry {
  entry_id : string;
  entry_name : string;
  entry_type : string
}.

(** The [inspection] dictionary. *)
Record Inspection := mkInspection {
  inspected_trace_id : string;
  total_observations : Z;
  observation_types : list (string * Z);
  llm_calls : list Entry;
  tool_calls : list Entry
}.

(** [d.get(k, 0)] *)
Fixpoint get_count (k : string) (d : list (string * Z)) : Z :=
  match d with
  | [] => 0
  | (k', n) :: d' => if String.eqb k k' then n else get_count k d'
  end.

(** [d[k] = n]: the binding is replaced in place, or added at the end. *)
Fixpoint set_count (k : string) (n : Z) (d : list (string * Z))
  : list (string * Z) :=
  match d with
  | [] => [(k, n)]
  | (k', n') :: d' =>
      if String.eqb k k' then (k', n) :: d' else (k', n') :: set_count k n d'
  end.

Definition type_of (obs : ApiObservation) : string :=
  match api_type obs with Some t => t | None => "unknown" end.

Definition name_of (obs : ApiObservation) : string :=
  match api_name obs with Some n => n | None => "unnamed" end.

(** One pass of [for obs in observations]. *)
Definition record_observation (inspection : Inspection) (obs : ApiObservation)
  : Inspection :=
  let obs_type := type_of obs in
  let obs_name := name_of obs in
  let types :=
    set_count obs_type (get_count obs_type (observation_types inspection) + 1)
      (observation_types inspection) in
  let entry := mkEntry (api_id obs) obs_name obs_type in
  if String.eqb obs_type "AGENT" then
    mkInspection (inspected_trace_id inspection) (total_observations inspection)
      types (llm_calls inspection ++ [entry])%list (tool_calls inspection)
  else if String.eqb obs_type "TOOL" then
    mkInspection (inspected_trace_id inspection) (total_observations inspection)
      types (llm_calls inspection) (tool_calls inspection ++ [entry])%list
  else
    mkInspection (inspected_trace_id inspection) (total_observations inspection)
      types (llm_calls inspection) (tool_calls inspection).

(** The inspection built from the observations of a trace. *)
Definition categorize (trace_id : string) (observations : list ApiObservation)
  : Inspection :=
  fold_left record_observation observations
    (mkInspection trace_id (Z.of_nat (List.length observations)) [] [] []).

(** The sum of the counts of a counter. *)
Definition sum_counts (d : list (string * Z)) : Z :=
  fold_right Z.add 0 (map snd d).

Definition has_type (t : string) (obs : ApiObservation) : bool :=
  String.eqb (type_of obs) t.

(** The entry the loop adds for an observation. *)
Definition entry_of (obs : ApiObservation) : Entry :=
  mkEntry (api_id obs) (name_of obs) (type_of obs).

(** How the waiting loop leaves the local [trace]: bound by a fetch that
    succeeded, or the function returned [None] from inside the loop, or
    the loop ended with nothing bound. *)
Inductive Fetched :=
| Got (t : ApiTrace)
| GaveUp
| Unbound.

Section WithService.

Context (S : Service).

(** [for i in range(max_wait)]: [remaining] passes are left and the next
    one has index [i]. *)
Fixpoint wait_for_trace (trace_id : string) (max_wait : Z) (remaining : nat)
    (i : Z) : M (Remote S) Fetched :=
  match remaining with
  | O => ret Unbound
  | Datatypes.S remaining' =>
      try_except
        (t <- request (trace_get S trace_id) ;; ret (Got t))
        (fun _ =>
           if Z.ltb i (max_wait - 1) then
             ask (fun r => (tt, sleep S 1 r)) ;;;
             wait_for_trace trace_id max_wait remaining' (i + 1)
           else ret GaveUp)
  end.

(** [inspect_trace(trace_id, max_wait)]; reading the unbound local raises
    [UnboundLocalError]. *)
Definition inspect_trace (trace_id : string) (max_wait : Z)
  : M (Remote S) (option Inspection) :=
  fetched <- wait_for_trace trace_id max_wait (Z.to_nat max_wait) 0 ;;
  match fetched with
  | Got t =>
      let observations :=
        match api_observations t with Some l => l | None => [] end in
      ret (Some (categorize trace_id observations))
  | GaveUp => ret None
  | Unbound =>
      raise (mkExn "UnboundLocalError"
               "cannot access local variable 'trace' where it is not associated with a value")
  end.

End WithService.

(** A service for examples: the remote state is the list of answers the
    next fetches will get, with the seconds slept so far. *)
Definition playback : Service :=
  mkService (list (outcome ApiTrace) * Z)
    (fun _ r =>
       match fst r with
       | [] => (Raised (mkExn "NotFoundError" "Trace not found"), r)
       | a :: rest => (a, (rest, snd r))
       end)
    (fun seconds r => (fst r, snd r + seconds)).

(** A service where the trace never becomes available; the remote state
    is the number of seconds slept. *)
Definition unreachable : Service :=
  mkService Z
    (fun _ r => (Raised (mkExn "NotFoundError" "Trace not found"), r))
    (fun seconds r => r + seconds).

Definition not_yet : outcome ApiTrace :=
  Raised (mkExn "NotFoundError" "Trace not found").

Definition sample_trace : ApiTrace :=
  mkApiTrace
    (Some [mkApiObservation "o1" (Some "SPAN") (Some "run_agent");
           mkApiObservation "o2" (Some "AGENT") (Some "call_llm");
           mkApiObservation "o3" (Some "SPAN") (Some "execute_tool");
           mkApiObservation "o4" (Some "TOOL") (Some "calculate");
           mkApiObservation "o5" (Some "AGENT") (Some "call_llm");
           mkApiObservation "o6" None None]).

End TraceInspection.

(* ===================================================================== *)
(** ** Strings and the monad: basic facts *)
(* ===================================================================== *)

Lemma prefix_refl : forall s, String.prefix s s = true.
Proof.
  induction s as [|c s IH]; simpl; [reflexivity|].
  destruct (ascii_dec c c) as [_|n]; [exact IH | contradiction n; reflexivity].
Qed.

Lemma contains_refl : forall s, contains s s = true.
Proof.
  intros s. destruct s; simpl; [reflexivity|].
  destruct (ascii_dec a a) as [_|n]; [|contradiction n; reflexivity].
  rewrite prefix_refl. reflexivity.
Qed.

(** A text occurs in every text that ends with it. *)
Lemma contains_suffix : forall p s, contains s (p ++ s) = true.
Proof.
  induction p as [|c p IH]; intros s.
  - apply contains_refl.
  - change (String c p ++ s) with (String c (p ++ s)).
    cbn [contains]. rewrite IH. destruct (String.prefix s _); reflexivity.
Qed.

Lemma count_obs_app : forall t a b,
  count_obs t (a ++ b) = (count_obs t a + count_obs t b)%nat.
Proof.
  intros. unfold count_obs. rewrite filter_app, length_app. reflexivity.
Qed.

(** Unfolding of the monad's combinators. *)
Ltac unfold_monad :=
  unfold bind, ret, raise, lift, ask, request, peek, observe, try_except in *.

(* ===================================================================== *)
(** ** Properties of the tools *)
(* ===================================================================== *)

Section ToolProperties.

Context (E : Env).

Local Abbreviation W := (World E).

Lemma calculate_returned : forall s v,
  py_eval E s = Returned v ->
  Tools.calculate E (VStr s) = Spec.success_of s v.
Proof. intros s v H. unfold Tools.calculate. rewrite H. reflexivity. Qed.

Lemma calculate_raised : forall s e,
  py_eval E s = Raised e ->
  Tools.calculate E (VStr s) = Spec.failure_of s e.
Proof. intros s e H. unfold Tools.calculate. rewrite H. reflexivity. Qed.

(** [random.choice] on a sequence that is not empty returns one of its
    elements. *)
Lemma random_choice_member : forall (seq : list string) (st : State W),
  seq <> [] ->
  exists fact st',
    Tools.random_choice E seq st = (Returned fact, st') /\ In fact seq.
Proof.
  intros seq st Hne. destruct seq as [|x seq']; [contradiction Hne; reflexivity|].
  unfold Tools.random_choice. unfold_monad.
  destruct (randbelow E (List.length (x :: seq')) (world st)) as [i w] eqn:Hdraw.
  eexists. eexists. split; [reflexivity|].
  apply nth_In. apply Nat.mod_upper_bound. simpl. discriminate.
Qed.

Lemma facts_get_chosen : forall category,
  exists l,
    Tools.facts_get (Spec.chosen_category category) Tools.facts = Some l
    /\ l <> []
    /\ match Tools.facts_get (lower category) Tools.facts with
       | Some _ => lower category
       | None => "general"
       end = Spec.chosen_category category.
Proof.
  intros category. unfold Spec.chosen_category, Spec.fixed_categories.
  remember (lower category) as k eqn:Hk. clear Hk.
  cbn [existsb Tools.facts_get Tools.facts].
  destruct (String.eqb k "general") eqn:H1;
    [apply String.eqb_eq in H1; subst k; eexists; repeat split; discriminate|].
  destruct (String.eqb k "science") eqn:H2;
    [apply String.eqb_eq in H2; subst k; eexists; repeat split; discriminate|].
  destruct (String.eqb k "history") eqn:H3;
    [apply String.eqb_eq in H3; subst k; eexists; repeat split; discriminate|].
  destruct (String.eqb k "tech") eqn:H4;
    [apply String.eqb_eq in H4; subst k; eexists; repeat split; discriminate|].
  eexists; repeat split; discriminate.
Qed.

End ToolProperties.







Lemma scripted_env_agrees : PyEval.agrees Scripted.env.
Proof.
  intros s r H. cbn [py_eval Scripted.env]. unfold Scripted.eval.
  rewrite H. reflexivity.
Qed.

(** C9.  For every category string, [get_random_fact] returns a success
    result whose [category] is the lower-cased string when that is one of
    the four keys of the table and ["general"] otherwise, and whose [fact]
    is a member of the list the table keeps under that category. *)
Theorem get_random_fact_member_or_general :
  forall (E : Env) (category : string) (st : State (World E)),
    exists fact l st',
      Tools.get_random_fact E (VStr category) st
      = (Returned [("success", VBool true);
                   ("category", VStr (Spec.chosen_category category));
                   ("fact", VStr fact)], st')
      /\ Tools.facts_get (Spec.chosen_category category) Tools.facts = Some l
      /\ In fact l
      /\ Spec.chosen_category category
         = (if existsb (String.eqb (lower category))
                 ["general"; "science"; "history"; "tech"]
            then lower category
            else "general").
Proof.
  intros E category st.
  destruct (facts_get_chosen category) as [l [Hl [Hne Hch]]].
  destruct (random_choice_member E l st Hne) as [fact [st' [Hrun Hin]]].
  exists fact, l, st'. repeat split.
  - unfold Tools.get_random_fact. unfold bind at 1. unfold ret at 1.
    rewrite Hch. rewrite Hl. unfold bind at 1. unfold ret at 1.
    unfold bind. rewrite Hrun. reflexivity.
  - exact Hl.
  - exact Hin.
Qed.

(** C8.  With an [eval] that agrees with the reference,
    [calculate("25 * 4")] is a success with the number 100 and
    [calculate("1/0")] is a failure whose error is the text of the
    division-by-zero exception; dispatched through [execute_tool] the
    latter is returned, not raised, and can be serialised for the model. *)
Theorem calculate_examples :
  forall (E : Env) (st : State (World E)),
    PyEval.agrees E ->
    Tools.calculate E (VStr "25 * 4")
    = [("success", VBool true); ("expression", VStr "25 * 4");
       ("result", VInt 100)]
    /\ is_numeric (VInt 100) = true
    /\ Tools.calculate E (VStr "1/0")
       = [("success", VBool false); ("expression", VStr "1/0");
          ("error", VStr "division by zero")]
    /\ Agent.execute_tool E "calculate" (VDict [("expression", VStr "1/0")]) st
       = (Returned [("success", VBool false); ("expression", VStr "1/0");
                    ("error", VStr "division by zero")],
          Spec.logged E TOOL "calculate" (Spec.logged E SPAN "execute_tool" st))
    /\ json_serializable
         (VDict [("success", VBool false); ("expression", VStr "1/0");
                 ("error", VStr "division by zero")]) = true.
Proof.
  intros E st Hag.
  assert (H100 : py_eval E "25 * 4" = Returned (VInt 100))
    by (apply Hag; reflexivity).
  assert (Hdiv : py_eval E "1/0" = Raised PyEval.ZeroDivisionError)
    by (apply Hag; reflexivity).
  repeat split.
  - rewrite (calculate_returned E _ _ H100). reflexivity.
  - rewrite (calculate_raised E _ _ Hdiv). reflexivity.
  - unfold Agent.execute_tool. unfold_monad. cbn.
    unfold Tools.decorated. unfold_monad. cbn.
    rewrite (calculate_raised E _ _ Hdiv). reflexivity.
Qed.

Lemma calculate_examples_witness :
  PyEval.agrees Scripted.env
  /\ Tools.calculate Scripted.env (VStr "1/0")
     = [("success", VBool false); ("expression", VStr "1/0");
        ("error", VStr "division by zero")].
Proof.
  split; [exact scripted_env_agrees|].
  apply (calculate_examples Scripted.env (Scripted.start [])).
  exact scripted_env_agrees.
Defined.




(* ===================================================================== *)
(** ** Properties of the dispatch *)
(* ===================================================================== *)

Section DispatchProperties.

Context (E : Env).

Local Abbreviation W := (World E).

(** [execute_tool] returns a dictionary whatever the tool does. *)
Lemma execute_tool_returns : forall tool_name tool_arguments (st : State W),
  exists tool_result st',
    Agent.execute_tool E tool_name tool_arguments st
    = (Returned tool_result, st').
Proof.
  intros tool_name tool_arguments st.
  unfold Agent.execute_tool. unfold bind at 1. unfold observe at 1.
  destruct (Agent.registry_get E tool_name (Tools.TOOL_FUNCTIONS E)) as [f|].
  - unfold try_except.
    match goal with
    | |- context [bind ?c ?k ?s] => destruct (bind c k s) as [[r|e] st1] eqn:Hcall
    end.
    + eexists. eexists. reflexivity.
    + eexists. eexists. reflexivity.
  - eexists. eexists. reflexivity.
Qed.

Lemma quiet_ret : forall A (a : A), Spec.quiet E (ret a).
Proof. intros A a st o st' H. inversion H. reflexivity. Qed.

Lemma quiet_raise : forall A e, Spec.quiet E (@raise W A e).
Proof. intros A e st o st' H. inversion H. reflexivity. Qed.

Lemma quiet_lift : forall A (r : outcome A), Spec.quiet E (lift r).
Proof. intros A r st o st' H. inversion H. reflexivity. Qed.

Lemma quiet_ask : forall A (f : W -> A * W), Spec.quiet E (ask f).
Proof.
  intros A f st o st' H. unfold ask in H.
  destruct (f (world st)) as [a w]. inversion H. reflexivity.
Qed.

Lemma quiet_observe : forall t name,
  t <> AGENT -> Spec.quiet E (observe t name).
Proof.
  intros t name Ht st o st' H. inversion H. cbn [trace].
  rewrite count_obs_app. destruct t; [contradiction Ht; reflexivity| |];
    cbn; apply Nat.add_0_r.
Qed.

Lemma quiet_bind : forall A B (c : M W A) (k : A -> M W B),
  Spec.quiet E c -> (forall a, Spec.quiet E (k a)) -> Spec.quiet E (bind c k).
Proof.
  intros A B c k Hc Hk st o st' H. unfold bind in H.
  destruct (c st) as [[a|e] st1] eqn:Hrun.
  - apply Hk in H. apply Hc in Hrun. congruence.
  - inversion H; subst. apply Hc in Hrun. exact Hrun.
Qed.

Lemma quiet_try_except : forall A (c : M W A) (h : PyExn -> M W A),
  Spec.quiet E c -> (forall e, Spec.quiet E (h e)) ->
  Spec.quiet E (try_except c h).
Proof.
  intros A c h Hc Hh st o st' H. unfold try_except in H.
  destruct (c st) as [[a|e] st1] eqn:Hrun.
  - inversion H; subst. apply Hc in Hrun. exact Hrun.
  - apply Hh in H. apply Hc in Hrun. congruence.
Qed.

Ltac quiet_step :=
  first [ apply quiet_ret | apply quiet_raise | apply quiet_lift
        | apply quiet_ask
        | apply quiet_observe; discriminate
        | apply quiet_bind; [|intro]
        | apply quiet_try_except; [|intro] ].

Lemma quiet_decorated : forall fname param default body,
  (forall v, Spec.quiet E (body v)) ->
  forall kwargs, Spec.quiet E (Tools.decorated E fname param default body kwargs).
Proof.
  intros fname param default body Hbody kwargs. unfold Tools.decorated.
  repeat quiet_step. apply Hbody.
Qed.

Lemma quiet_get_current_time : forall v,
  Spec.quiet E (Tools.get_current_time E v).
Proof. intros v. unfold Tools.get_current_time. repeat quiet_step. Qed.

Lemma quiet_random_choice : forall seq,
  Spec.quiet E (Tools.random_choice E seq).
Proof.
  intros seq. unfold Tools.random_choice.
  destruct seq; repeat quiet_step.
Qed.

Lemma quiet_get_random_fact : forall v,
  Spec.quiet E (Tools.get_random_fact E v).
Proof.
  intros v. unfold Tools.get_random_fact.
  apply quiet_bind; [destruct v; quiet_step|intro k].
  apply quiet_bind; [destruct (Tools.facts_get _ Tools.facts); quiet_step|intro l].
  apply quiet_bind; [apply quiet_random_choice|intro f]. quiet_step.
Qed.

(** Every registered tool is quiet. *)
Lemma quiet_registered : forall tool_name tool_function kwargs,
  Agent.registry_get E tool_name (Tools.TOOL_FUNCTIONS E) = Some tool_function ->
  Spec.quiet E (tool_function kwargs).
Proof.
  intros tool_name f kwargs H. unfold Tools.TOOL_FUNCTIONS in H.
  cbn [Agent.registry_get] in H.
  repeat match type of H with
         | (if ?b then _ else _) = _ => destruct b
         end; inversion H; subst; apply quiet_decorated; intro v.
  - quiet_step.
  - apply quiet_get_current_time.
  - apply quiet_get_random_fact.
Qed.

(** [execute_tool] makes no model call. *)
Lemma quiet_execute_tool : forall tool_name tool_arguments,
  Spec.quiet E (Agent.execute_tool E tool_name tool_arguments).
Proof.
  intros tool_name tool_arguments. unfold Agent.execute_tool.
  apply quiet_bind; [quiet_step|intros _].
  destruct (Agent.registry_get E tool_name (Tools.TOOL_FUNCTIONS E)) as [f|] eqn:Hf.
  - apply quiet_try_except; [|intro e; quiet_step].
    apply quiet_bind; [|intro r; quiet_step].
    unfold Agent.call_unpacked.
    destruct tool_arguments; try quiet_step.
    eapply quiet_registered. exact Hf.
  - quiet_step.
Qed.

(** A round of tool calls makes no model call. *)
Lemma quiet_run_tool_calls : forall calls messages,
  Spec.quiet E (Agent.run_tool_calls E calls messages).
Proof.
  induction calls as [|tc rest IH]; intros messages; cbn [Agent.run_tool_calls].
  - quiet_step.
  - apply quiet_bind; [quiet_step|intro args].
    apply quiet_bind; [apply quiet_execute_tool|intro result].
    apply quiet_bind; [quiet_step|intro text]. apply IH.
Qed.

(** C4.  For a registered tool and any arguments, when the call of the
    tool function raises an exception [execute_tool] returns the failure
    dictionary whose [error] ends with the text of the exception, in the
    state the tool left; nothing is raised. *)
Theorem execute_tool_absorbs_exception :
  forall tool_name tool_function tool_arguments (st : State W) e st',
    Agent.registry_get E tool_name (Tools.TOOL_FUNCTIONS E) = Some tool_function ->
    Agent.call_unpacked E tool_name tool_function tool_arguments
      (Spec.logged E SPAN "execute_tool" st) = (Raised e, st') ->
    Agent.execute_tool E tool_name tool_arguments st
    = (Returned [("success", VBool false);
                 ("error", VStr ("Tool execution failed: " ++ exn_text e))],
       st')
    /\ contains (exn_text e) ("Tool execution failed: " ++ exn_text e) = true.
Proof.
  intros tool_name f tool_arguments st e st' Hf Hcall. split.
  - unfold Agent.execute_tool. unfold bind at 1. unfold observe at 1.
    rewrite Hf. unfold try_except. unfold bind at 1.
    unfold Spec.logged in Hcall. rewrite Hcall. reflexivity.
  - apply contains_suffix.
Qed.

End DispatchProperties.

Lemma execute_tool_absorbs_exception_witness :
  Agent.execute_tool Scripted.env "get_random_fact"
    (VDict [("category", VInt 5)]) (Scripted.start [])
  = (Returned [("success", VBool false);
               ("error",
                VStr "Tool execution failed: 'int' object has no attribute 'lower'")],
     mkState [] [mkObs SPAN "execute_tool"; mkObs TOOL "get_random_fact"])
  /\ contains "'int' object has no attribute 'lower'"
       "Tool execution failed: 'int' object has no attribute 'lower'" = true.
Proof.
  apply (execute_tool_absorbs_exception Scripted.env "get_random_fact"
           (Tools.decorated Scripted.env "get_random_fact" "category"
              (Some (VStr "general")) (Tools.get_random_fact Scripted.env))
           (VDict [("category", VInt 5)]) (Scripted.start [])
           (mkExn "AttributeError" "'int' object has no attribute 'lower'")
           (mkState [] [mkObs SPAN "execute_tool"; mkObs TOOL "get_random_fact"]));
    reflexivity.
Defined.

(* ===================================================================== *)
(** ** Properties of the loop *)
(* ===================================================================== *)

Section LoopProperties.

Context (E : Env).

Local Abbreviation W := (World E).

(** [call_llm] is the endpoint's answer, with one observation recorded. *)
Lemma call_llm_unfold : forall messages (st : State W),
  Agent.call_llm E messages (Some Tools.TOOL_DEFINITIONS) "auto" st
  = (fst (chat_completions_create E (Spec.llm_request messages) (world st)),
     Spec.after_reply E
       (snd (chat_completions_create E (Spec.llm_request messages) (world st)))
       st).
Proof.
  intros messages st. unfold Agent.call_llm. unfold_monad. cbn.
  change (mkRequest "gpt-4o-mini" messages _) with (Spec.llm_request messages).
  destruct (chat_completions_create E (Spec.llm_request messages) (world st))
    as [[r|e] w]; reflexivity.
Qed.

(** One pass through the body of the loop, by cases on the reply. *)
Lemma loop_body_unfold : forall session_id iteration messages (st : State W),
  Agent.loop_body E session_id iteration messages st
  = match chat_completions_create E (Spec.llm_request messages) (world st) with
    | (Raised e, w') => (Raised e, Spec.after_reply E w' st)
    | (Returned response, w') =>
        let st1 := Spec.after_reply E w' st in
        let messages1 := (messages ++ [Agent.assistant_entry response])%list in
        if Agent.wants_tools response then
          match Agent.run_tool_calls E (Agent.requested_calls response)
                  messages1 st1 with
          | (Returned messages2, st2) => (Returned (Agent.Continue messages2), st2)
          | (Raised e, st2) => (Raised e, st2)
          end
        else if String.eqb (finish_reason response) "stop" then
          (Returned
             (Agent.Return
                (Agent.success_result (of_opt_str (content response)) iteration
                   (get_trace_url E w') (get_current_trace_id E w') session_id)
                messages1),
           st1)
        else (Returned (Agent.Continue messages1), st1)
    end.
Proof.
  intros session_id iteration messages st.
  unfold Agent.loop_body. unfold bind at 1. rewrite call_llm_unfold.
  destruct (chat_completions_create E (Spec.llm_request messages) (world st))
    as [[response|e] w']; cbn [fst snd]; [|reflexivity].
  cbv zeta.
  destruct (Agent.wants_tools response).
  - unfold bind, ret.
    destruct (Agent.run_tool_calls E (Agent.requested_calls response) _ _)
      as [[m|e] s]; reflexivity.
  - destruct (String.eqb (finish_reason response) "stop"); reflexivity.
Qed.

(** The loop with a round left runs the body and goes on or returns. *)
Lemma agent_loop_unfold : forall session_id n iteration messages (st : State W),
  Agent.agent_loop E session_id (S n) iteration messages st
  = match Agent.loop_body E session_id (iteration + 1) messages st with
    | (Returned (Agent.Continue messages1), st1) =>
        Agent.agent_loop E session_id n (iteration + 1) messages1 st1
    | (Returned (Agent.Return result messages1), st1) =>
        (Returned (result, messages1), st1)
    | (Raised e, st1) => (Raised e, st1)
    end.
Proof.
  intros. cbn [Agent.agent_loop]. unfold bind, ret.
  destruct (Agent.loop_body E session_id (iteration + 1) messages st)
    as [[[m|r m]|e] st1]; reflexivity.
Qed.

Lemma agent_loop_ceiling : forall session_id iteration messages (st : State W),
  Agent.agent_loop E session_id O iteration messages st
  = (Returned (Agent.failure_result iteration (get_trace_url E (world st))
                 (get_current_trace_id E (world st)) session_id, messages),
     st).
Proof. reflexivity. Qed.

(** [run_agent] is its loop, started after the session is settled. *)
Lemma run_agent_conversation_unfold :
  forall user_query user_id session_id max_iterations (st : State W),
    Agent.run_agent_conversation E user_query user_id session_id max_iterations st
    = Agent.agent_loop E (fst (Spec.resolve_session E session_id st))
        (Z.to_nat max_iterations) 0 (Agent.initial_messages user_query)
        (snd (Spec.resolve_session E session_id st)).
Proof.
  intros. unfold Agent.run_agent_conversation, Spec.resolve_session.
  unfold_monad. destruct session_id as [s|]; cbn [fst snd]; [reflexivity|].
  cbn [world trace]. destruct (uuid4_str E (world st)) as [u w]. reflexivity.
Qed.

Lemma run_agent_unfold :
  forall user_query user_id session_id max_iterations (st : State W),
    Agent.run_agent E user_query user_id session_id max_iterations st
    = match Agent.run_agent_conversation E user_query user_id session_id
              max_iterations st with
      | (Returned r, st') => (Returned (fst r), st')
      | (Raised e, st') => (Raised e, st')
      end.
Proof. intros. unfold Agent.run_agent. unfold_monad. reflexivity. Qed.

(** Getting to a later head of the loop does not change how the loop
    ends. *)
Lemma reaches_agent_loop :
  forall session_id n iteration messages (st : State W) n' iteration' messages' st',
    Spec.reaches E session_id n iteration messages st n' iteration' messages' st' ->
    Agent.agent_loop E session_id n iteration messages st
    = Agent.agent_loop E session_id n' iteration' messages' st'.
Proof.
  intros until st'. intros H. induction H as [|? ? ? ? ? ? ? ? ? ? Hbody _ IH].
  - reflexivity.
  - rewrite agent_loop_unfold, Hbody. exact IH.
Qed.

(** A pass through the body makes exactly one model call. *)
Lemma loop_body_one_call : forall session_id iteration messages (st : State W) o st',
  Agent.loop_body E session_id iteration messages st = (o, st') ->
  count_obs AGENT (trace st') = S (count_obs AGENT (trace st)).
Proof.
  intros session_id iteration messages st o st' H.
  rewrite loop_body_unfold in H.
  assert (Hreply : forall w, count_obs AGENT (trace (Spec.after_reply E w st))
                             = S (count_obs AGENT (trace st))).
  { intros w. cbn [Spec.after_reply trace]. rewrite count_obs_app. cbn. lia. }
  destruct (chat_completions_create E (Spec.llm_request messages) (world st))
    as [[response|e] w'].
  - cbv zeta in H. destruct (Agent.wants_tools response).
    + destruct (Agent.run_tool_calls E _ _ _) as [[m|e] s] eqn:Hround;
        apply quiet_run_tool_calls in Hround; inversion H; subst;
        rewrite Hround; apply Hreply.
    + destruct (String.eqb (finish_reason response) "stop");
        inversion H; subst; apply Hreply.
  - inversion H; subst. apply Hreply.
Qed.

(** The iteration counter advances with the model calls. *)
Lemma reaches_counts :
  forall session_id n iteration messages (st : State W) n' iteration' messages' st',
    Spec.reaches E session_id n iteration messages st n' iteration' messages' st' ->
    iteration' - iteration
    = Z.of_nat (count_obs AGENT (trace st')) - Z.of_nat (count_obs AGENT (trace st))
    /\ iteration <= iteration'
    /\ (iteration' = iteration -> messages' = messages /\ st' = st /\ n' = n).
Proof.
  intros until st'. intros H.
  induction H as [|? ? ? ? ? ? ? ? ? ? Hbody _ [IH1 [IH2 _]]].
  - repeat split; lia.
  - apply loop_body_one_call in Hbody. repeat split; lia.
Qed.

Lemma reaches_rounds :
  forall session_id n iteration messages (st : State W) n' iteration' messages' st',
    Spec.reaches E session_id n iteration messages st n' iteration' messages' st' ->
    Z.of_nat n + iteration = Z.of_nat n' + iteration'.
Proof.
  intros until st'. intros H. induction H as [|? ? ? ? ? ? ? ? ? ? _ _ IH]; lia.
Qed.

(** At every head of the loop of a run, the test of the [while] holds
    exactly when a round is left. *)
Lemma loop_guard :
  forall session_id max_iterations messages (st : State W)
         n iteration messages' st',
    Spec.reaches E session_id (Z.to_nat max_iterations) 0 messages st
      n iteration messages' st' ->
    Z.ltb iteration max_iterations = negb (Nat.eqb n 0).
Proof.
  intros until st'. intros H.
  pose proof (reaches_rounds _ _ _ _ _ _ _ _ _ H) as Hsum.
  destruct (reaches_counts _ _ _ _ _ _ _ _ _ H) as [_ [Hle _]].
  destruct (Z.ltb_spec iteration max_iterations);
    destruct (Nat.eqb_spec n 0); cbn [negb]; try reflexivity; lia.
Qed.

Lemma resolve_session_trace : forall session_id (st : State W),
  trace (snd (Spec.resolve_session E session_id st))
  = (trace st ++ [mkObs SPAN "run_agent"])%list.
Proof.
  intros session_id st. unfold Spec.resolve_session.
  destruct session_id as [s|]; [reflexivity|].
  destruct (uuid4_str E (world st)) as [u w]. reflexivity.
Qed.

Lemma resolve_session_calls : forall session_id (st : State W),
  count_obs AGENT (trace (snd (Spec.resolve_session E session_id st)))
  = count_obs AGENT (trace st).
Proof.
  intros. rewrite resolve_session_trace, count_obs_app. cbn. lia.
Qed.

(** One call of a round, then the rest. *)
Lemma run_tool_calls_cons : forall tool_call rest messages (st : State W),
  Agent.run_tool_calls E (tool_call :: rest) messages st
  = match json_loads E (function_arguments tool_call) with
    | Raised e => (Raised e, st)
    | Returned tool_arguments =>
        match Agent.execute_tool E (function_name tool_call) tool_arguments st with
        | (Returned tool_result, st1) =>
            match Agent.json_dumps E (VDict tool_result) with
            | Returned text =>
                Agent.run_tool_calls E rest
                  (messages ++ [Agent.tool_entry tool_call text])%list st1
            | Raised e => (Raised e, st1)
            end
        | (Raised e, st1) => (Raised e, st1)
        end
    end.
Proof.
  intros. cbn [Agent.run_tool_calls]. unfold bind, lift.
  destruct (json_loads E (function_arguments tool_call)) as [a|e]; [|reflexivity].
  destruct (Agent.execute_tool E (function_name tool_call) a st) as [[d|e] st1];
    [|reflexivity].
  destruct (Agent.json_dumps E (VDict d)); reflexivity.
Qed.

Lemma json_dumps_returns : forall obj,
  json_serializable obj = true <-> exists text, Agent.json_dumps E obj = Returned text.
Proof.
  intros obj. unfold json_serializable, Agent.json_dumps.
  destruct (json_reject obj) as [r|]; split; intros H.
  - discriminate.
  - destruct H as [t H]. destruct r; discriminate.
  - eexists. reflexivity.
  - reflexivity.
Qed.

(** A round returns exactly when each of its calls decodes and
    serialises. *)
Lemma round_ok_returns : forall calls messages (st : State W),
  Spec.round_ok E calls st = true
  <-> exists messages' st',
        Agent.run_tool_calls E calls messages st = (Returned messages', st').
Proof.
  induction calls as [|tc rest IH]; intros messages st.
  - split; [|reflexivity]. intros _. eexists. eexists. reflexivity.
  - rewrite run_tool_calls_cons. cbn [Spec.round_ok].
    destruct (json_loads E (function_arguments tc)) as [a|e].
    + destruct (Agent.execute_tool E (function_name tc) a st) as [[d|e] st1].
      * unfold json_serializable, Agent.json_dumps.
        destruct (json_reject (VDict d)) as [r|]; cbn [andb].
        -- split; [discriminate|]. intros [m [s H]]. destruct r; discriminate.
        -- apply IH.
      * split; [discriminate|]. intros [m [s H]]. discriminate.
    + split; [discriminate|]. intros [m [s H]]. discriminate.
Qed.

(** A round that returns has appended one tool message for each call, in
    the order of the calls. *)
Lemma run_tool_calls_shape : forall calls messages (st : State W) messages' st',
  Agent.run_tool_calls E calls messages st = (Returned messages', st') ->
  exists texts,
    List.length texts = List.length calls
    /\ messages' = (messages ++ Spec.tool_entries calls texts)%list.
Proof.
  induction calls as [|tc rest IH]; intros messages st messages' st' H.
  - inversion H; subst. exists []. split; [reflexivity|].
    unfold Spec.tool_entries. cbn. rewrite app_nil_r. reflexivity.
  - rewrite run_tool_calls_cons in H.
    destruct (json_loads E (function_arguments tc)) as [a|e]; [|discriminate].
    destruct (Agent.execute_tool E (function_name tc) a st) as [[d|e] st1];
      [|discriminate].
    destruct (Agent.json_dumps E (VDict d)) as [text|e]; [|discriminate].
    apply IH in H. destruct H as [texts [Hlen Heq]].
    exists (text :: texts). split; [cbn; lia|].
    rewrite Heq. rewrite <- app_assoc. reflexivity.
Qed.

(** The loop returns one of the two result dictionaries. *)
Lemma agent_loop_result :
  forall session_id n iteration messages (st : State W) result messages' st',
    Agent.agent_loop E session_id n iteration messages st
    = (Returned (result, messages'), st') ->
    (exists answer i url id,
        result = Agent.success_result answer i url id session_id)
    \/ (exists i url id, result = Agent.failure_result i url id session_id).
Proof.
  intros session_id n. induction n as [|n IH]; intros iteration messages st result messages' st' H.
  - rewrite agent_loop_ceiling in H. inversion H; subst.
    right. eexists. eexists. eexists. reflexivity.
  - rewrite agent_loop_unfold in H.
    destruct (Agent.loop_body E session_id (iteration + 1) messages st)
      as [[[m|r m]|e] st1] eqn:Hbody; [eapply IH; exact H| |discriminate].
    inversion H; subst. rewrite loop_body_unfold in Hbody.
    destruct (chat_completions_create E (Spec.llm_request messages) (world st))
      as [[response|e] w']; [|discriminate].
    cbv zeta in Hbody. destruct (Agent.wants_tools response).
    + destruct (Agent.run_tool_calls E _ _ _) as [[m2|e] s]; discriminate.
    + destruct (String.eqb (finish_reason response) "stop"); [|discriminate].
      inversion Hbody; subst. left. eexists. eexists. eexists. eexists.
      reflexivity.
Qed.

(** C10.  A result [run_agent] returns has one of two key sets: with
    [success] true it has the key [answer] and no key [error]; with
    [success] false it has the key [error] and no key [answer], so that
    looking [answer] up finds no binding at all. *)
Theorem result_shapes_differ :
  forall user_query user_id session_id max_iterations (st : State W) result st',
    Agent.run_agent E user_query user_id session_id max_iterations st
    = (Returned result, st') ->
    (Spec.is_success_shape result
     /\ exists answer, dict_get "answer" result = Some answer)
    \/ (Spec.is_failure_shape result /\ dict_get "answer" result = None).
Proof.
  intros until st'. intros H. rewrite run_agent_unfold in H.
  destruct (Agent.run_agent_conversation E user_query user_id session_id
              max_iterations st) as [[[r m]|e] s] eqn:Hrun; [|discriminate].
  inversion H; subst. cbn [fst]. rewrite run_agent_conversation_unfold in Hrun.
  apply agent_loop_result in Hrun.
  destruct Hrun as [[a [i [u [t Hr]]]]|[i [u [t Hr]]]]; subst.
  - left. split; [repeat split|]. eexists. reflexivity.
  - right. split; [repeat split|]. reflexivity.
Qed.

(** C6.  When a model call of a run raises an exception, in whatever
    iteration, [run_agent] raises that same exception: it is neither
    caught nor turned into a failure result. *)
Theorem model_failure_propagates :
  forall user_query user_id session_id max_iterations (st : State W)
         n iteration messages st_k e w',
    Spec.reaches E (fst (Spec.resolve_session E session_id st))
      (Z.to_nat max_iterations) 0 (Agent.initial_messages user_query)
      (snd (Spec.resolve_session E session_id st))
      (S n) iteration messages st_k ->
    chat_completions_create E (Spec.llm_request messages) (world st_k)
    = (Raised e, w') ->
    Agent.run_agent E user_query user_id session_id max_iterations st
    = (Raised e, Spec.after_reply E w' st_k).
Proof.
  intros until w'. intros Hreach Hcall.
  rewrite run_agent_unfold, run_agent_conversation_unfold.
  rewrite (reaches_agent_loop _ _ _ _ _ _ _ _ _ Hreach).
  rewrite agent_loop_unfold, loop_body_unfold, Hcall. reflexivity.
Qed.

(** C1, as the code has it.  In every iteration of [run_agent] in which
    the model's reply has the finish reason [stop], the loop takes the
    reply as final: it returns the success result whose [answer] is the
    reply's content and whose [iterations] is the number of model calls
    the run has made.  When this is the first reply, [iterations] is 1,
    the conversation holds no tool message and nothing but the run and
    its one model call was observed. *)
Theorem stop_reply_is_final :
  forall user_query user_id session_id max_iterations (st : State W)
         n iteration messages st_k response w',
    Spec.reaches E (fst (Spec.resolve_session E session_id st))
      (Z.to_nat max_iterations) 0 (Agent.initial_messages user_query)
      (snd (Spec.resolve_session E session_id st))
      (S n) iteration messages st_k ->
    chat_completions_create E (Spec.llm_request messages) (world st_k)
    = (Returned response, w') ->
    finish_reason response = "stop" ->
    exists result conversation st',
      Agent.run_agent_conversation E user_query user_id session_id
        max_iterations st = (Returned (result, conversation), st')
      /\ Agent.run_agent E user_query user_id session_id max_iterations st
         = (Returned result, st')
      /\ conversation = (messages ++ [Agent.assistant_entry response])%list
      /\ dict_get "success" result = Some (VBool true)
      /\ dict_get "answer" result = Some (of_opt_str (content response))
      /\ dict_get "iterations" result = Some (VInt (iteration + 1))
      /\ iteration + 1
         = Z.of_nat (count_obs AGENT (trace st'))
           - Z.of_nat (count_obs AGENT (trace st))
      /\ (iteration = 0 ->
          dict_get "iterations" result = Some (VInt 1)
          /\ existsb (Spec.role_is "tool") conversation = false
          /\ trace st'
             = (trace st ++ [mkObs SPAN "run_agent"; mkObs AGENT "call_llm"])%list).
Proof.
  intros until w'. intros Hreach Hcall Hstop.
  assert (Hwants : Agent.wants_tools response = false).
  { unfold Agent.wants_tools. rewrite Hstop. reflexivity. }
  assert (Hloop :
    Agent.run_agent_conversation E user_query user_id session_id
      max_iterations st
    = (Returned
         (Agent.success_result (of_opt_str (content response)) (iteration + 1)
            (get_trace_url E w') (get_current_trace_id E w')
            (fst (Spec.resolve_session E session_id st)),
          (messages ++ [Agent.assistant_entry response])%list),
       Spec.after_reply E w' st_k)).
  { rewrite run_agent_conversation_unfold.
    rewrite (reaches_agent_loop _ _ _ _ _ _ _ _ _ Hreach).
    rewrite agent_loop_unfold, loop_body_unfold, Hcall. cbv zeta.
    rewrite Hwants, Hstop. reflexivity. }
  eexists. eexists. eexists.
  split; [exact Hloop|].
  split; [rewrite run_agent_unfold, Hloop; reflexivity|].
  split; [reflexivity|].
  split; [reflexivity|].
  split; [reflexivity|].
  split; [reflexivity|].
  destruct (reaches_counts _ _ _ _ _ _ _ _ _ Hreach) as [Hcount [Hle Hfirst]].
  split.
  - rewrite resolve_session_calls in Hcount.
    cbn [Spec.after_reply trace]. rewrite count_obs_app. cbn. lia.
  - intros H0. destruct (Hfirst H0) as [Hm [Hs _]]. subst.
    split; [reflexivity|]. split; [reflexivity|].
    cbn [Spec.after_reply trace]. rewrite resolve_session_trace.
    rewrite <- app_assoc. reflexivity.
Qed.

(** When every pass requests tools that decode and serialise, the loop
    goes round until no round is left. *)
Lemma always_tools_reaches :
  forall session_id n iteration messages (st : State W),
    Spec.always_tools E n messages st ->
    exists messages' st',
      Spec.reaches E session_id n iteration messages st
        O (iteration + Z.of_nat n) messages' st'.
Proof.
  intros session_id n. induction n as [|n IH]; intros iteration messages st H.
  - exists messages, st. replace (iteration + Z.of_nat 0) with iteration by lia.
    apply Spec.reaches_here.
  - cbn [Spec.always_tools] in H.
    destruct H as [response [w' [Hcall [Hwants [Hok Hnext]]]]].
    destruct (proj1 (round_ok_returns _
                       (messages ++ [Agent.assistant_entry response])%list _) Hok)
      as [messages1 [st1 Hround]].
    destruct (IH (iteration + 1) messages1 st1 (Hnext _ _ Hround))
      as [messages' [st' Hreach]].
    exists messages', st'.
    replace (iteration + Z.of_nat (S n)) with (iteration + 1 + Z.of_nat n) by lia.
    eapply Spec.reaches_pass; [|exact Hreach].
    rewrite loop_body_unfold, Hcall. cbv zeta. rewrite Hwants, Hround.
    reflexivity.
Qed.

(** C2, as the code has it.  For every positive ceiling, if every reply
    of the model up to the ceiling requests tool calls, each of which
    decodes its argument text and serialises its result, [run_agent]
    returns the failure result, with [success] false and [iterations]
    equal to the ceiling; the run has then made as many model calls as
    the ceiling, however many tools each round executed. *)
Theorem ceiling_returns_failure :
  forall user_query user_id session_id max_iterations (st : State W),
    0 < max_iterations ->
    Spec.always_tools E (Z.to_nat max_iterations)
      (Agent.initial_messages user_query)
      (snd (Spec.resolve_session E session_id st)) ->
    exists result st',
      Agent.run_agent E user_query user_id session_id max_iterations st
      = (Returned result, st')
      /\ result
         = Agent.failure_result max_iterations (get_trace_url E (world st'))
             (get_current_trace_id E (world st'))
             (fst (Spec.resolve_session E session_id st))
      /\ dict_get "success" result = Some (VBool false)
      /\ dict_get "iterations" result = Some (VInt max_iterations)
      /\ count_obs AGENT (trace st')
         = (count_obs AGENT (trace st) + Z.to_nat max_iterations)%nat.
Proof.
  intros user_query user_id session_id max_iterations st Hpos Halways.
  destruct (always_tools_reaches (fst (Spec.resolve_session E session_id st))
              _ 0 _ _ Halways) as [messages' [st' Hreach]].
  exists (Agent.failure_result max_iterations (get_trace_url E (world st'))
            (get_current_trace_id E (world st'))
            (fst (Spec.resolve_session E session_id st))), st'.
  assert (Hmax : 0 + Z.of_nat (Z.to_nat max_iterations) = max_iterations)
    by (rewrite Z2Nat.id; lia).
  split.
  - rewrite run_agent_unfold, run_agent_conversation_unfold.
    rewrite (reaches_agent_loop _ _ _ _ _ _ _ _ _ Hreach).
    rewrite agent_loop_ceiling, Hmax. reflexivity.
  - split; [reflexivity|]. split; [reflexivity|]. split; [reflexivity|].
    destruct (reaches_counts _ _ _ _ _ _ _ _ _ Hreach) as [Hcount _].
    rewrite resolve_session_calls in Hcount. lia.
Qed.

(** C5.  For a tool name that is not in the registry and any arguments,
    [execute_tool] returns the failure dictionary whose [error] ends with
    that name; and the loop goes on: a reply that requests a call of that
    tool, with an argument text that decodes, ends its pass with the
    failure appended as a tool message and the next iteration begins. *)
Theorem unknown_tool_is_soft :
  forall tool_name tool_arguments,
    Agent.registry_get E tool_name (Tools.TOOL_FUNCTIONS E) = None ->
    (forall st : State W,
        Agent.execute_tool E tool_name tool_arguments st
        = (Returned [("success", VBool false);
                     ("error", VStr ("Unknown tool: " ++ tool_name))],
           Spec.logged E SPAN "execute_tool" st))
    /\ contains tool_name ("Unknown tool: " ++ tool_name) = true
    /\ (forall session_id n iteration messages (st : State W) response w'
               tool_call,
          chat_completions_create E (Spec.llm_request messages) (world st)
          = (Returned response, w') ->
          finish_reason response = "tool_calls" ->
          tool_calls response = Some [tool_call] ->
          function_name tool_call = tool_name ->
          json_loads E (function_arguments tool_call) = Returned tool_arguments ->
          Agent.agent_loop E session_id (S n) iteration messages st
          = Agent.agent_loop E session_id n (iteration + 1)
              (messages
               ++ [Agent.assistant_entry response;
                   Agent.tool_entry tool_call
                     (json_encode E
                        (VDict [("success", VBool false);
                                ("error", VStr ("Unknown tool: " ++ tool_name))]))])%list
              (Spec.logged E SPAN "execute_tool" (Spec.after_reply E w' st))).
Proof.
  intros tool_name tool_arguments Hunknown.
  assert (Hexec : forall st : State W,
             Agent.execute_tool E tool_name tool_arguments st
             = (Returned [("success", VBool false);
                          ("error", VStr ("Unknown tool: " ++ tool_name))],
                Spec.logged E SPAN "execute_tool" st)).
  { intros st. unfold Agent.execute_tool. unfold bind, observe.
    rewrite Hunknown. reflexivity. }
  split; [exact Hexec|]. split; [apply contains_suffix|].
  intros session_id n iteration messages st response w' tool_call
         Hcall Hreason Hcalls Hname Hargs.
  rewrite agent_loop_unfold, loop_body_unfold, Hcall. cbv zeta.
  unfold Agent.wants_tools, Agent.requested_calls.
  rewrite Hreason, Hcalls. cbn [String.eqb truthy_list andb].
  replace (String.eqb "tool_calls" "tool_calls") with true by reflexivity.
  cbn [andb]. rewrite run_tool_calls_cons, Hargs, Hname, Hexec.
  unfold Agent.json_dumps. cbn [json_reject snd]. cbn [Agent.run_tool_calls].
  unfold ret. rewrite <- app_assoc. reflexivity.
Qed.



Lemma assistant_not_tool : forall response,
  Spec.role_is "tool" (Agent.assistant_entry response) = false.
Proof. reflexivity. Qed.










End LoopProperties.

(* ===================================================================== *)
(** ** The properties at work on scripted runs *)
(* ===================================================================== *)

Example reference_product : PyEval.reference "25 * 4" = Some (Returned (VInt 100)).
Proof. reflexivity. Qed.

Example reference_precedence :
  PyEval.reference "2 - 3 * -(4 + 1)" = Some (Returned (VInt 17)).
Proof. reflexivity. Qed.

(** The example of the tool's description: a true division gives a
    [float], here 75.0. *)
Example reference_division :
  PyEval.reference "(100 + 50) / 2"
  = Some (Returned (VFloat (S754_finite false 5277655813324800 (-46)))).
Proof. vm_compute. reflexivity. Qed.

(** A [float] among the operands: 1.5 and 10.0. *)
Example reference_float_operand :
  PyEval.reference "1/2 + 1" = Some (Returned (VFloat (S754_finite false 6755399441055744 (-52))))
  /\ PyEval.reference "100 / 5 / 2" = Some (Returned (VFloat (S754_finite false 5629499534213120 (-49)))).
Proof. split; vm_compute; reflexivity. Qed.

(** Every operation rounds: the sum is 0.30000000000000004. *)
Example reference_rounding :
  PyEval.reference "0.1 + 0.2" = Some (Returned (VFloat (S754_finite false 5404319552844596 (-54)))).
Proof. vm_compute. reflexivity. Qed.

(** Zeros keep their sign, and a [float] divided by zero raises. *)
Example reference_zero :
  PyEval.reference "-0.0" = Some (Returned (VFloat (S754_zero true)))
  /\ PyEval.reference "0 / -5" = Some (Returned (VFloat (S754_zero true)))
  /\ PyEval.reference "1.5 / 0"
     = Some (Raised (mkExn "ZeroDivisionError" "float division by zero")).
Proof. repeat split. Qed.

(** A literal too large for a double is infinite; no exception. *)
Example reference_infinity :
  PyEval.reference "1e309" = Some (Returned (VFloat (S754_infinity false))).
Proof. vm_compute. reflexivity. Qed.

Example reference_leading_zero : PyEval.reference "012" = None.
Proof. reflexivity. Qed.

Example reference_power : PyEval.reference "2 ** 3" = None.
Proof. reflexivity. Qed.

(** A tool message whose identifier no assistant message emitted. *)
Example stray_tool_message :
  Spec.correlated []
    (Agent.initial_messages "q" ++ [Agent.tool_entry Scripted.call_time "{}"])
  = false.
Proof. reflexivity. Qed.

(** A reply with the finish reason [stop] in the second iteration, after a
    round with one tool call. *)
Lemma stop_reply_is_final_witness :
  exists result st',
    Agent.run_agent Scripted.env "What time is it?" "test_user" (Some "s1") 10
      (Scripted.start [Scripted.asks [Scripted.call_time]; Scripted.says "done"])
    = (Returned result, st')
    /\ dict_get "success" result = Some (VBool true)
    /\ dict_get "answer" result = Some (VStr "done")
    /\ dict_get "iterations" result = Some (VInt 2)
    /\ count_obs AGENT (trace st') = 2%nat.
Proof.
  destruct (stop_reply_is_final Scripted.env "What time is it?" "test_user"
              (Some "s1") 10
              (Scripted.start
                 [Scripted.asks [Scripted.call_time]; Scripted.says "done"])
              8 1
              (Agent.initial_messages "What time is it?"
               ++ [Agent.assistant_entry
                     (mkResponse "tool_calls" None (Some [Scripted.call_time]));
                   Agent.tool_entry Scripted.call_time "<dict>"])%list
              (mkState [Scripted.says "done"]
                 [mkObs SPAN "run_agent"; mkObs AGENT "call_llm";
                  mkObs SPAN "execute_tool"; mkObs TOOL "get_current_time"])
              (mkResponse "stop" (Some "done") None) [])
    as [result [conversation [st' [_ [Hrun [_ [Hs [Ha [Hi [Hn _]]]]]]]]]].
  - eapply Spec.reaches_pass; [|apply Spec.reaches_here]. reflexivity.
  - reflexivity.
  - reflexivity.
  - exists result, st'. repeat split; try assumption.
    change (count_obs AGENT (trace (Scripted.start
              [Scripted.asks [Scripted.call_time]; Scripted.says "done"])))
      with O in Hn.
    lia.
Defined.

(** C1, as stated, fails: a reply cut off by the token limit requests no
    tool call, yet the loop does not take it as final.  With a ceiling of
    one the run ends in the failure result; with a ceiling of two the
    model is called again and the answer is the second reply's. *)
Lemma truncated_reply_is_not_final :
  Agent.wants_tools (mkResponse "length" (Some "The answer is") None) = false
  /\ Agent.run_agent Scripted.env "q" "test_user" (Some "s1") 1
       (Scripted.start [Scripted.truncated "The answer is"])
     = (Returned
          [("success", VBool false);
           ("error", VStr "Maximum iterations reached without conclusive answer");
           ("iterations", VInt 1);
           ("trace_url", VStr "https://cloud.langfuse.com/trace/t1");
           ("trace_id", VStr "t1");
           ("session_id", VStr "s1")],
        mkState [] [mkObs SPAN "run_agent"; mkObs AGENT "call_llm"])
  /\ Agent.run_agent Scripted.env "q" "test_user" (Some "s1") 2
       (Scripted.start [Scripted.truncated "The answer is"; Scripted.says "42"])
     = (Returned
          [("success", VBool true);
           ("answer", VStr "42");
           ("iterations", VInt 2);
           ("trace_url", VStr "https://cloud.langfuse.com/trace/t1");
           ("trace_id", VStr "t1");
           ("session_id", VStr "s1")],
        mkState []
          [mkObs SPAN "run_agent"; mkObs AGENT "call_llm"; mkObs AGENT "call_llm"]).
Proof. repeat split. Qed.

(** Two rounds of tool calls under a ceiling of two. *)
Lemma ceiling_returns_failure_witness :
  exists result st',
    Agent.run_agent Scripted.env "q" "test_user" (Some "s1") 2
      (Scripted.start
         [Scripted.asks [Scripted.call_time; Scripted.call_unknown];
          Scripted.asks [Scripted.call_fact_5]])
    = (Returned result, st')
    /\ dict_get "success" result = Some (VBool false)
    /\ dict_get "iterations" result = Some (VInt 2)
    /\ count_obs AGENT (trace st') = 2%nat
    /\ count_named "execute_tool" (trace st') = 3%nat.
Proof.
  destruct (ceiling_returns_failure Scripted.env "q" "test_user" (Some "s1") 2
              (Scripted.start
                 [Scripted.asks [Scripted.call_time; Scripted.call_unknown];
                  Scripted.asks [Scripted.call_fact_5]]))
    as [result [st' [Hrun [_ [Hs [Hi Hn]]]]]].
  - lia.
  - eexists. eexists. split; [reflexivity|]. split; [reflexivity|].
    split; [reflexivity|]. intros messages1 st1 H1.
    injection H1 as <- <-.
    eexists. eexists. split; [reflexivity|]. split; [reflexivity|].
    split; [reflexivity|]. intros messages2 st2 H2. exact I.
  - exists result, st'. split; [exact Hrun|]. split; [exact Hs|].
    split; [exact Hi|]. split; [exact Hn|].
    assert (Hst : st' = snd (Agent.run_agent Scripted.env "q" "test_user"
                               (Some "s1") 2
                               (Scripted.start
                                  [Scripted.asks [Scripted.call_time; Scripted.call_unknown];
                                   Scripted.asks [Scripted.call_fact_5]])))
      by (rewrite Hrun; reflexivity).
    rewrite Hst. reflexivity.
Defined.

(** C2, as stated, fails: the one reply requests a tool call, but the
    argument text of the call is empty, which [json.loads] rejects; the
    exception is raised out of [run_agent]. *)
Lemma undecodable_arguments_raise :
  Agent.wants_tools
    (mkResponse "tool_calls" None (Some [Scripted.call_no_arguments])) = true
  /\ json_loads Scripted.env (function_arguments Scripted.call_no_arguments)
     = Raised (mkExn "JSONDecodeError" "Expecting value: line 1 column 1 (char 0)")
  /\ Agent.run_agent Scripted.env "q" "test_user" (Some "s1") 1
       (Scripted.start [Scripted.asks [Scripted.call_no_arguments]])
     = (Raised (mkExn "JSONDecodeError" "Expecting value: line 1 column 1 (char 0)"),
        mkState [] [mkObs SPAN "run_agent"; mkObs AGENT "call_llm"]).
Proof. repeat split. Qed.



Lemma unknown_tool_is_soft_witness :
  Agent.registry_get Scripted.env "send_email" (Tools.TOOL_FUNCTIONS Scripted.env)
  = None
  /\ Agent.execute_tool Scripted.env "send_email" (VDict []) (Scripted.start [])
     = (Returned [("success", VBool false);
                  ("error", VStr "Unknown tool: send_email")],
        mkState [] [mkObs SPAN "execute_tool"])
  /\ contains "send_email" "Unknown tool: send_email" = true.
Proof.
  split; [reflexivity|].
  destruct (unknown_tool_is_soft Scripted.env "send_email" (VDict []) eq_refl)
    as [Hexec [Hcontains _]].
  split; [apply (Hexec (Scripted.start []))|exact Hcontains].
Defined.

(** The endpoint fails at the second model call, after a round of tools. *)
Lemma model_failure_propagates_witness :
  Agent.run_agent Scripted.env "q" "test_user" (Some "s1") 10
    (Scripted.start [Scripted.asks [Scripted.call_time]])
  = (Raised (mkExn "APIConnectionError" "Connection error."),
     mkState []
       [mkObs SPAN "run_agent"; mkObs AGENT "call_llm";
        mkObs SPAN "execute_tool"; mkObs TOOL "get_current_time";
        mkObs AGENT "call_llm"]).
Proof.
  apply (model_failure_propagates Scripted.env "q" "test_user" (Some "s1") 10
           (Scripted.start [Scripted.asks [Scripted.call_time]])
           8 1
           (Agent.initial_messages "q"
            ++ [Agent.assistant_entry
                  (mkResponse "tool_calls" None (Some [Scripted.call_time]));
                Agent.tool_entry Scripted.call_time "<dict>"])%list
           (mkState []
              [mkObs SPAN "run_agent"; mkObs AGENT "call_llm";
               mkObs SPAN "execute_tool"; mkObs TOOL "get_current_time"])
           (mkExn "APIConnectionError" "Connection error.") []).
  - eapply Spec.reaches_pass; [|apply Spec.reaches_here]. reflexivity.
  - reflexivity.
Defined.

(** The failure result of a run that reaches its ceiling. *)
Lemma result_shapes_differ_witness :
  (Spec.is_success_shape
     (Agent.failure_result 1 (VStr "https://cloud.langfuse.com/trace/t1")
        (VStr "t1") "s1")
   /\ exists answer,
        dict_get "answer"
          (Agent.failure_result 1 (VStr "https://cloud.langfuse.com/trace/t1")
             (VStr "t1") "s1") = Some answer)
  \/ (Spec.is_failure_shape
        (Agent.failure_result 1 (VStr "https://cloud.langfuse.com/trace/t1")
           (VStr "t1") "s1")
      /\ dict_get "answer"
           (Agent.failure_result 1 (VStr "https://cloud.langfuse.com/trace/t1")
              (VStr "t1") "s1") = None).
Proof.
  apply (result_shapes_differ Scripted.env "q" "test_user" (Some "s1") 1
           (Scripted.start [Scripted.truncated "The answer is"])
           (Agent.failure_result 1 (VStr "https://cloud.langfuse.com/trace/t1")
              (VStr "t1") "s1")
           (mkState [] [mkObs SPAN "run_agent"; mkObs AGENT "call_llm"])).
  reflexivity.
Defined.

(* ===================================================================== *)
(** ** Further properties of the tools *)
(* ===================================================================== *)

(** X1.  Whatever the expression, the result of [calculate] echoes it
    under [expression] and has one of two key sets: [success] true with a
    [result] and no [error], or [success] false with an [error] text and
    no [result]. *)
Theorem calculate_result_keys :
  forall (E : Env) (expression : PyValue),
    dict_get "expression" (Tools.calculate E expression) = Some expression
    /\ ((dict_get "success" (Tools.calculate E expression) = Some (VBool true)
         /\ dict_has "result" (Tools.calculate E expression) = true
         /\ dict_has "error" (Tools.calculate E expression) = false)
        \/ (dict_get "success" (Tools.calculate E expression) = Some (VBool false)
            /\ dict_has "result" (Tools.calculate E expression) = false
            /\ exists text,
                 dict_get "error" (Tools.calculate E expression)
                 = Some (VStr text))).
Proof.
  intros E expression. unfold Tools.calculate.
  destruct expression; try (split; [reflexivity|right; repeat split; eexists; reflexivity]).
  destruct (py_eval E s) as [v|e].
  - split; [reflexivity|]. left. repeat split.
  - split; [reflexivity|]. right. repeat split. eexists. reflexivity.
Qed.

(** X2.  An expression that is not a string ([None], a boolean, a number,
    a list or a dictionary, as a decoded argument can be, or another
    object of the model) is not evaluated: [calculate] returns the failure
    carrying the text of [eval]'s type error. *)
Theorem calculate_rejects_non_string :
  forall (E : Env) (expression : PyValue),
    (forall s, expression <> VStr s) ->
    Tools.calculate E expression
    = [("success", VBool false); ("expression", expression);
       ("error", VStr "eval() arg 1 must be a string, bytes or code object")].
Proof.
  intros E expression H. unfold Tools.calculate.
  destruct expression; try reflexivity. contradiction (H s). reflexivity.
Qed.

Lemma calculate_rejects_non_string_witness :
  Tools.calculate Scripted.env (VInt 5)
  = [("success", VBool false); ("expression", VInt 5);
     ("error", VStr "eval() arg 1 must be a string, bytes or code object")].
Proof.
  apply (calculate_rejects_non_string Scripted.env (VInt 5)).
  intros s H. discriminate H.
Defined.

(** X3.  [get_current_time] does not use its [timezone]: called in the
    same state with two time zones it returns results that differ in the
    echoed [timezone] only, reads the clock once either way and its body
    records nothing (the tool's observation is the decorator's). *)
Theorem get_current_time_ignores_timezone :
  forall (E : Env) (timezone1 timezone2 : PyValue) (st : State (World E)),
    exists fields st',
      Tools.get_current_time E timezone1 st
      = (Returned (("success", VBool true) :: ("timezone", timezone1) :: fields),
         st')
      /\ Tools.get_current_time E timezone2 st
         = (Returned (("success", VBool true) :: ("timezone", timezone2) :: fields),
            st')
      /\ map fst fields = ["datetime"; "date"; "time"; "formatted"]
      /\ world st' = snd (datetime_now E (world st))
      /\ trace st' = trace st.
Proof.
  intros E timezone1 timezone2 st. unfold Tools.get_current_time. unfold_monad.
  destruct (datetime_now E (world st)) as [now w].
  eexists. eexists. repeat split.
Qed.

Lemma lower_ascii_idempotent : forall c, lower_ascii (lower_ascii c) = lower_ascii c.
Proof.
  intros c.
  destruct c as [[] [] [] [] [] [] [] []]; reflexivity.
Qed.

Lemma lower_idempotent : forall s, lower (lower s) = lower s.
Proof.
  induction s as [|c s IH]; [reflexivity|].
  cbn [lower]. rewrite lower_ascii_idempotent, IH. reflexivity.
Qed.

(** X4.  [get_random_fact] does not tell the case of its category: a
    category and its lower-cased form give the same outcome in the same
    state. *)
Theorem get_random_fact_ignores_case :
  forall (E : Env) (category : string) (st : State (World E)),
    Tools.get_random_fact E (VStr category) st
    = Tools.get_random_fact E (VStr (lower category)) st.
Proof.
  intros E category st. unfold Tools.get_random_fact.
  unfold bind at 1. unfold ret at 1.
  unfold bind at 3. unfold ret at 3.
  rewrite lower_idempotent. reflexivity.
Qed.

(** X5.  A category that is not a string ([None], a boolean, a number, a
    list or a dictionary, as a decoded argument can be, or another object
    of the model) has no [lower]: [get_random_fact] raises
    [AttributeError] before it looks at the table or draws, so the
    fallback to the default category does not apply. *)
Theorem get_random_fact_rejects_non_string :
  forall (E : Env) (category : PyValue) (st : State (World E)),
    (forall s, category <> VStr s) ->
    Tools.get_random_fact E category st
    = (Raised (mkExn "AttributeError"
                 ("'" ++ type_name_of category
                      ++ "' object has no attribute 'lower'")),
       st).
Proof.
  intros E category st H. unfold Tools.get_random_fact.
  destruct category; try reflexivity. contradiction (H s). reflexivity.
Qed.

Lemma get_random_fact_rejects_non_string_witness :
  Tools.get_random_fact Scripted.env VNone (Scripted.start [])
  = (Raised (mkExn "AttributeError"
               "'NoneType' object has no attribute 'lower'"),
     Scripted.start []).
Proof.
  apply (get_random_fact_rejects_non_string Scripted.env VNone (Scripted.start [])).
  intros s H. discriminate H.
Defined.

(* ===================================================================== *)
(** ** Further properties of the dispatch *)
(* ===================================================================== *)

Section DispatchMore.

Context (E : Env).

Local Abbreviation W := (World E).

Lemma silent_ret : forall A (a : A), Main.silent E (ret a).
Proof. intros A a st o st' H. inversion H. reflexivity. Qed.

Lemma silent_raise : forall A e, Main.silent E (@raise W A e).
Proof. intros A e st o st' H. inversion H. reflexivity. Qed.

Lemma silent_lift : forall A (r : outcome A), Main.silent E (lift r).
Proof. intros A r st o st' H. inversion H. reflexivity. Qed.

Lemma silent_ask : forall A (f : W -> A * W), Main.silent E (ask f).
Proof.
  intros A f st o st' H. unfold ask in H.
  destruct (f (world st)) as [a w]. inversion H. reflexivity.
Qed.

Lemma silent_bind : forall A B (c : M W A) (k : A -> M W B),
  Main.silent E c -> (forall a, Main.silent E (k a)) -> Main.silent E (bind c k).
Proof.
  intros A B c k Hc Hk st o st' H. unfold bind in H.
  destruct (c st) as [[a|e] st1] eqn:Hrun.
  - apply Hk in H. apply Hc in Hrun. congruence.
  - inversion H; subst. apply Hc in Hrun. exact Hrun.
Qed.

Ltac silent_step :=
  first [ apply silent_ret | apply silent_raise | apply silent_lift
        | apply silent_ask | apply silent_bind; [|intro] ].

Lemma silent_get_current_time : forall v,
  Main.silent E (Tools.get_current_time E v).
Proof. intros v. unfold Tools.get_current_time. repeat silent_step. Qed.

Lemma silent_get_random_fact : forall v,
  Main.silent E (Tools.get_random_fact E v).
Proof.
  intros v. unfold Tools.get_random_fact.
  apply silent_bind; [destruct v; silent_step|intro k].
  apply silent_bind; [destruct (Tools.facts_get _ Tools.facts); silent_step|intro l].
  apply silent_bind; [|intro f; silent_step].
  unfold Tools.random_choice. destruct l; repeat silent_step.
Qed.

(** A decorated tool records its own observation and nothing else. *)
Lemma decorated_observes : forall fname param default body kwargs (st : State W),
  (forall v, Main.silent E (body v)) ->
  trace (snd (Tools.decorated E fname param default body kwargs st))
  = (trace st ++ [mkObs TOOL fname])%list.
Proof.
  intros fname param default body kwargs st Hbody.
  unfold Tools.decorated. unfold bind at 1. unfold observe at 1.
  unfold bind, lift.
  destruct (Tools.bind_kwargs fname param default _) as [v|e]; [|reflexivity].
  destruct (body v _) as [o st'] eqn:Hrun. apply Hbody in Hrun. exact Hrun.
Qed.

(** The registry holds the three decorated tools under their own names. *)
Lemma registry_cases : forall tool_name,
  (tool_name = "calculate"
   /\ Agent.registry_get E tool_name (Tools.TOOL_FUNCTIONS E)
      = Some (Tools.decorated E "calculate" "expression" None
                (fun v => ret (Tools.calculate E v))))
  \/ (tool_name = "get_current_time"
      /\ Agent.registry_get E tool_name (Tools.TOOL_FUNCTIONS E)
         = Some (Tools.decorated E "get_current_time" "timezone"
                   (Some (VStr "UTC")) (Tools.get_current_time E)))
  \/ (tool_name = "get_random_fact"
      /\ Agent.registry_get E tool_name (Tools.TOOL_FUNCTIONS E)
         = Some (Tools.decorated E "get_random_fact" "category"
                   (Some (VStr "general")) (Tools.get_random_fact E)))
  \/ (Main.registered tool_name = false
      /\ Agent.registry_get E tool_name (Tools.TOOL_FUNCTIONS E) = None).
Proof.
  intros tool_name. unfold Tools.TOOL_FUNCTIONS, Main.registered.
  cbn [Agent.registry_get existsb].
  destruct (String.eqb tool_name "calculate") eqn:H1.
  { left. apply String.eqb_eq in H1. split; [exact H1|reflexivity]. }
  destruct (String.eqb tool_name "get_current_time") eqn:H2.
  { right. left. apply String.eqb_eq in H2. split; [exact H2|reflexivity]. }
  destruct (String.eqb tool_name "get_random_fact") eqn:H3.
  { right. right. left. apply String.eqb_eq in H3. split; [exact H3|reflexivity]. }
  right. right. right. split; reflexivity.
Qed.

(** What [execute_tool] does with a registered tool, by the outcome of
    the call. *)
Lemma execute_tool_registered : forall tool_name f tool_arguments (st : State W),
  Agent.registry_get E tool_name (Tools.TOOL_FUNCTIONS E) = Some f ->
  Agent.execute_tool E tool_name tool_arguments st
  = match Agent.call_unpacked E tool_name f tool_arguments
            (Spec.logged E SPAN "execute_tool" st) with
    | (Returned result, st') => (Returned result, st')
    | (Raised e, st') =>
        (Returned [("success", VBool false);
                   ("error", VStr ("Tool execution failed: " ++ exn_text e))],
         st')
    end.
Proof.
  intros tool_name f tool_arguments st Hf.
  unfold Agent.execute_tool. unfold bind at 1. unfold observe at 1.
  rewrite Hf. unfold try_except, bind, ret, Spec.logged.
  destruct (Agent.call_unpacked E tool_name f tool_arguments _) as [[r|e] st'];
    reflexivity.
Qed.

Lemma execute_tool_trace :
  forall tool_name tool_arguments (st : State W),
    trace (snd (Agent.execute_tool E tool_name tool_arguments st))
    = (trace st ++ Main.dispatch_observations tool_name tool_arguments)%list.
Proof.
  intros tool_name tool_arguments st.
  assert (Hdec : forall fname param default body,
             (forall v, Main.silent E (body v)) ->
             Main.registered fname = true ->
             trace (snd (match Agent.call_unpacked E fname
                                 (Tools.decorated E fname param default body)
                                 tool_arguments
                                 (Spec.logged E SPAN "execute_tool" st) with
                         | (Returned result, st') => (Returned result, st')
                         | (Raised e, st') =>
                             (Returned
                                [("success", VBool false);
                                 ("error",
                                  VStr ("Tool execution failed: " ++ exn_text e))],
                              st')
                         end))
             = (trace st ++ Main.dispatch_observations fname tool_arguments)%list).
  { intros fname param default body Hbody Hreg.
    unfold Main.dispatch_observations. rewrite Hreg.
    pose proof (decorated_observes fname param default body) as Hobs.
    unfold Agent.call_unpacked.
    destruct tool_arguments; try reflexivity.
    specialize (Hobs d (Spec.logged E SPAN "execute_tool" st) Hbody).
    destruct (Tools.decorated E fname param default body d _) as [[r|e] st'];
      cbn [snd] in *; rewrite Hobs; cbn [Spec.logged trace];
      rewrite <- app_assoc; reflexivity. }
  destruct (registry_cases tool_name) as [[Hn Hf]|[[Hn Hf]|[[Hn Hf]|[Hn Hf]]]].
  - rewrite (execute_tool_registered _ _ _ _ Hf). subst tool_name.
    apply Hdec; [intro v; apply silent_ret|reflexivity].
  - rewrite (execute_tool_registered _ _ _ _ Hf). subst tool_name.
    apply Hdec; [apply silent_get_current_time|reflexivity].
  - rewrite (execute_tool_registered _ _ _ _ Hf). subst tool_name.
    apply Hdec; [apply silent_get_random_fact|reflexivity].
  - unfold Agent.execute_tool. unfold bind, observe. rewrite Hf.
    unfold Main.dispatch_observations. rewrite Hn.
    destruct tool_arguments; reflexivity.
Qed.

(** X6.  The observations [execute_tool] records are fixed by its
    arguments, whatever the tool does: its own span, followed by the
    tool's observation exactly when the name is registered and the
    arguments are a mapping. *)
Theorem execute_tool_observations :
  forall tool_name tool_arguments (st : State W),
    trace (snd (Agent.execute_tool E tool_name tool_arguments st))
    = (trace st ++ Main.dispatch_observations tool_name tool_arguments)%list.
Proof. exact execute_tool_trace. Qed.

Lemma get_random_fact_success : forall v (st : State W) d st',
  Tools.get_random_fact E v st = (Returned d, st') ->
  dict_get "success" d = Some (VBool true).
Proof.
  intros v st d st' H. unfold Tools.get_random_fact in H.
  destruct v; unfold bind, ret, raise in H; try discriminate.
  destruct (Tools.facts_get _ Tools.facts) as [l|]; [|discriminate].
  destruct (Tools.random_choice E l st) as [[f|e] s1]; [|discriminate].
  inversion H. reflexivity.
Qed.

Lemma calculate_success : forall v,
  exists b, dict_get "success" (Tools.calculate E v) = Some (VBool b).
Proof.
  intros v. unfold Tools.calculate.
  destruct v; try (exists false; reflexivity).
  destruct (py_eval E s); [exists true|exists false]; reflexivity.
Qed.

(** A registered tool that returns, returns a dictionary with a boolean
    under [success]. *)
Lemma decorated_success : forall fname param default body kwargs (st : State W) d st',
  (forall v s d' s', body v s = (Returned d', s') ->
                     exists b, dict_get "success" d' = Some (VBool b)) ->
  Tools.decorated E fname param default body kwargs st = (Returned d, st') ->
  exists b, dict_get "success" d = Some (VBool b).
Proof.
  intros fname param default body kwargs st d st' Hbody H.
  unfold Tools.decorated in H. unfold bind, observe, lift in H.
  destruct (Tools.bind_kwargs fname param default _) as [v|e]; [|discriminate].
  eapply Hbody. exact H.
Qed.

(** X7.  Whatever the tool name and the argument value, a dictionary that
    [execute_tool] returns has a boolean under [success], and the dispatch
    makes no model call, however it ends. *)
Theorem execute_tool_result_has_success :
  forall tool_name tool_arguments (st : State W) o st',
    Agent.execute_tool E tool_name tool_arguments st = (o, st') ->
    count_obs AGENT (trace st') = count_obs AGENT (trace st)
    /\ forall tool_result,
         o = Returned tool_result ->
         exists b, dict_get "success" tool_result = Some (VBool b).
Proof.
  intros tool_name tool_arguments st o st' Hrun.
  split; [exact (quiet_execute_tool E _ _ _ _ _ Hrun)|].
  intros tool_result Ho. subst o.
  assert (Hreg : forall f,
             Agent.registry_get E tool_name (Tools.TOOL_FUNCTIONS E) = Some f ->
             (forall kwargs s d s', f kwargs s = (Returned d, s') ->
                                    exists b, dict_get "success" d = Some (VBool b)) ->
             exists b, dict_get "success" tool_result = Some (VBool b)).
  { intros f Hf Hsucc. rewrite (execute_tool_registered _ _ _ _ Hf) in Hrun.
    destruct (Agent.call_unpacked E tool_name f tool_arguments _)
      as [[r|e] s1] eqn:Hcall; inversion Hrun; subst.
    - unfold Agent.call_unpacked in Hcall.
      destruct tool_arguments; try discriminate.
      exact (Hsucc _ _ _ _ Hcall).
    - exists false. reflexivity. }
  destruct (registry_cases tool_name) as [[Hn Hf]|[[Hn Hf]|[[Hn Hf]|[Hn Hf]]]].
  - apply (Hreg _ Hf). intros kwargs s d s' H.
    eapply decorated_success; [|exact H].
    intros v s0 d' s0' Hb. inversion Hb; subst.
    apply calculate_success.
  - apply (Hreg _ Hf). intros kwargs s d s' H.
    eapply decorated_success; [|exact H].
    intros v s0 d' s0' Hb. unfold Tools.get_current_time in Hb. unfold_monad.
    destruct (datetime_now E (world s0)) as [now w]. inversion Hb.
    exists true. reflexivity.
  - apply (Hreg _ Hf). intros kwargs s d s' H.
    eapply decorated_success; [|exact H].
    intros v s0 d' s0' Hb. exists true.
    eapply get_random_fact_success. exact Hb.
  - unfold Agent.execute_tool in Hrun. unfold bind, observe in Hrun.
    rewrite Hf in Hrun. inversion Hrun. exists false. reflexivity.
Qed.

Lemma execute_tool_calculate :
  forall (expression : PyValue) (st : State W),
    Agent.execute_tool E "calculate" (VDict [("expression", expression)]) st
    = (Returned (Tools.calculate E expression),
       Spec.logged E TOOL "calculate" (Spec.logged E SPAN "execute_tool" st)).
Proof.
  intros expression st. unfold Agent.execute_tool. unfold_monad. cbn.
  unfold Tools.decorated. unfold_monad. cbn. reflexivity.
Qed.

(** X8.  Dispatching [calculate] with its one argument gives exactly what
    [calculate] returns for that argument, whatever it is; the dispatch
    adds its span and the tool's observation and nothing else. *)
Theorem execute_tool_runs_calculate :
  forall (expression : PyValue) (st : State W),
    Agent.execute_tool E "calculate" (VDict [("expression", expression)]) st
    = (Returned (Tools.calculate E expression),
       Spec.logged E TOOL "calculate" (Spec.logged E SPAN "execute_tool" st)).
Proof. exact execute_tool_calculate. Qed.

(** X9.  Optional arguments that are left out take the defaults of the
    tool functions: without arguments [get_current_time] reports the time
    zone [UTC] and [get_random_fact] a fact of the category [general]. *)
Theorem omitted_arguments_take_defaults :
  forall st : State W,
    (exists fields st',
        Agent.execute_tool E "get_current_time" (VDict []) st
        = (Returned (("success", VBool true) :: ("timezone", VStr "UTC") :: fields),
           st'))
    /\ (exists fact l st',
           Agent.execute_tool E "get_random_fact" (VDict []) st
           = (Returned [("success", VBool true); ("category", VStr "general");
                        ("fact", VStr fact)], st')
           /\ Tools.facts_get "general" Tools.facts = Some l
           /\ In fact l).
Proof.
  intros st. split.
  - assert (Htime : exists fields st',
               Tools.get_current_time E (VStr "UTC")
                 (Spec.logged E TOOL "get_current_time"
                    (Spec.logged E SPAN "execute_tool" st))
               = (Returned (("success", VBool true)
                            :: ("timezone", VStr "UTC") :: fields), st')).
    { unfold Tools.get_current_time. unfold_monad.
      destruct (datetime_now E _) as [now w]. eexists. eexists. reflexivity. }
    destruct Htime as [fields [st' Hrun]].
    exists fields, st'.
    unfold Agent.execute_tool. unfold bind at 1. unfold observe at 1.
    cbn [Agent.registry_get Tools.TOOL_FUNCTIONS String.eqb Ascii.eqb Bool.eqb].
    unfold try_except, bind at 1. unfold Agent.call_unpacked, Tools.decorated.
    unfold bind at 1. unfold observe at 1. unfold bind at 1. unfold lift at 1.
    cbn [Tools.bind_kwargs Tools.passed_on filter find dict_get].
    unfold Spec.logged in Hrun.
    cbn [world trace] in *. rewrite Hrun. reflexivity.
  - assert (Hfact : exists fact l st',
               Tools.get_random_fact E (VStr "general")
                 (Spec.logged E TOOL "get_random_fact"
                    (Spec.logged E SPAN "execute_tool" st))
               = (Returned [("success", VBool true); ("category", VStr "general");
                            ("fact", VStr fact)], st')
               /\ Tools.facts_get "general" Tools.facts = Some l
               /\ In fact l).
    { destruct (facts_get_chosen "general") as [l [Hl [Hne _]]].
      destruct (random_choice_member E l
                  (Spec.logged E TOOL "get_random_fact"
                     (Spec.logged E SPAN "execute_tool" st)) Hne)
        as [fact [st' [Hc Hin]]].
      exists fact, l, st'. split; [|split; [exact Hl|exact Hin]].
      unfold Tools.get_random_fact. unfold bind at 1. unfold ret at 1.
      change (lower "general") with "general".
      change (Spec.chosen_category "general") with "general" in Hl.
      cbn [Tools.facts_get Tools.facts String.eqb Ascii.eqb Bool.eqb] in Hl |- *.
      injection Hl as Hl. subst l.
      unfold bind at 1. unfold ret at 1. unfold bind. rewrite Hc. reflexivity. }
    destruct Hfact as [fact [l [st' [Hrun [Hl Hin]]]]].
    exists fact, l, st'. split; [|split; [exact Hl|exact Hin]].
    unfold Agent.execute_tool. unfold bind at 1. unfold observe at 1.
    cbn [Agent.registry_get Tools.TOOL_FUNCTIONS String.eqb Ascii.eqb Bool.eqb].
    unfold try_except, bind at 1. unfold Agent.call_unpacked, Tools.decorated.
    unfold bind at 1. unfold observe at 1. unfold bind at 1. unfold lift at 1.
    cbn [Tools.bind_kwargs Tools.passed_on filter find dict_get].
    unfold Spec.logged in Hrun.
    cbn [world trace] in *. rewrite Hrun. reflexivity.
Qed.

End DispatchMore.

(** The dispatch of a name that is not registered. *)
Lemma execute_tool_result_has_success_witness :
  count_obs AGENT [mkObs SPAN "execute_tool"] = count_obs AGENT []
  /\ forall tool_result,
       Returned [("success", VBool false);
                 ("error", VStr "Unknown tool: send_email")]
       = Returned tool_result ->
       exists b, dict_get "success" tool_result = Some (VBool b).
Proof.
  apply (execute_tool_result_has_success Scripted.env "send_email" (VDict [])
           (Scripted.start [])
           (Returned [("success", VBool false);
                      ("error", VStr "Unknown tool: send_email")])
           (mkState [] [mkObs SPAN "execute_tool"])).
  reflexivity.
Defined.

Section ArgumentBinding.

Context (E : Env).

Local Abbreviation W := (World E).

(** Binding fails on a keyword that is not the parameter, and on a
    missing parameter that has no default. *)
Lemma bind_kwargs_raises : forall fname param default kwargs,
  (existsb (fun kv => negb (String.eqb (fst kv) param)) kwargs
   || (match default with None => true | Some _ => false end
       && negb (dict_has param kwargs)))%bool = true ->
  exists e, Tools.bind_kwargs fname param default kwargs = Raised e.
Proof.
  intros fname param default kwargs H. unfold Tools.bind_kwargs.
  destruct (find (fun kv => negb (String.eqb (fst kv) param)) kwargs)
    as [[k v]|] eqn:Hfind; [eexists; reflexivity|].
  apply orb_true_iff in H. destruct H as [H|H].
  - apply existsb_exists in H. destruct H as [x [Hin Hx]].
    rewrite (find_none _ _ Hfind x Hin) in Hx. discriminate.
  - apply andb_true_iff in H. destruct H as [Hd Hk].
    unfold dict_has in Hk.
    destruct (dict_get param kwargs); [discriminate|].
    destruct default; [discriminate|]. eexists. reflexivity.
Qed.

(** A decorated tool whose arguments do not bind raises after recording
    its observation, without running its body. *)
Lemma decorated_unbound : forall fname param default body kwargs (st : State W) e,
  Tools.bind_kwargs fname param default (Tools.passed_on kwargs) = Raised e ->
  Tools.decorated E fname param default body kwargs st
  = (Raised e, Spec.logged E TOOL fname st).
Proof.
  intros fname param default body kwargs st e H.
  unfold Tools.decorated. unfold bind, observe, lift. rewrite H. reflexivity.
Qed.

(** X10.  Arguments a registered tool cannot be called with (a value that
    is not a mapping, a keyword that is neither the tool's parameter nor
    one the tracing wrapper takes for itself, or no [expression] for
    [calculate]) never reach the tool's body: the clock is not read and
    nothing is drawn or evaluated, and [execute_tool] returns the failure
    dictionary with the text of the binding error. *)
Theorem ill_formed_arguments_fail :
  forall tool_name tool_arguments (st : State W),
    Main.registered tool_name = true ->
    Main.ill_formed tool_name tool_arguments = true ->
    exists text,
      Agent.execute_tool E tool_name tool_arguments st
      = (Returned [("success", VBool false);
                   ("error", VStr ("Tool execution failed: " ++ text))],
         mkState (world st)
           (trace st ++ Main.dispatch_observations tool_name tool_arguments)).
Proof.
  intros tool_name tool_arguments st Hreg Hill.
  assert (Hdec : forall param default body,
             Main.parameter_of tool_name = param ->
             (match default with None => true | Some _ => false end
              = String.eqb tool_name "calculate") ->
             (param = "expression" \/ String.eqb tool_name "calculate" = false) ->
             exists text,
               match Agent.call_unpacked E tool_name
                       (Tools.decorated E tool_name param default body)
                       tool_arguments (Spec.logged E SPAN "execute_tool" st) with
               | (Returned result, st') => (Returned result, st')
               | (Raised e, st') =>
                   (Returned
                      [("success", VBool false);
                       ("error", VStr ("Tool execution failed: " ++ exn_text e))],
                    st')
               end
               = (Returned [("success", VBool false);
                            ("error", VStr ("Tool execution failed: " ++ text))],
                  mkState (world st)
                    (trace st
                     ++ Main.dispatch_observations tool_name tool_arguments))).
  { intros param default body Hparam Hdefault Hcalc.
    unfold Main.dispatch_observations. rewrite Hreg.
    unfold Agent.call_unpacked.
    destruct tool_arguments; try (eexists; reflexivity).
    cbn [Main.ill_formed] in Hill. rewrite Hparam in Hill.
    destruct (bind_kwargs_raises tool_name param default (Tools.passed_on d))
      as [e He].
    { rewrite Hdefault. destruct Hcalc as [Hc|Hc].
      - subst param. rewrite Hc in Hill |- *. exact Hill.
      - rewrite Hc in Hill |- *. cbn [andb] in *.
        rewrite orb_false_r in Hill |- *. exact Hill. }
    rewrite (decorated_unbound _ _ _ _ _ _ _ He).
    exists (exn_text e). unfold Spec.logged. cbn [world trace].
    rewrite <- app_assoc. reflexivity. }
  destruct (registry_cases E tool_name) as [[Hn Hf]|[[Hn Hf]|[[Hn Hf]|[Hn Hf]]]].
  - rewrite (execute_tool_registered E _ _ _ _ Hf). subst tool_name.
    apply Hdec; [reflexivity|reflexivity|left; reflexivity].
  - rewrite (execute_tool_registered E _ _ _ _ Hf). subst tool_name.
    apply Hdec; [reflexivity|reflexivity|right; reflexivity].
  - rewrite (execute_tool_registered E _ _ _ _ Hf). subst tool_name.
    apply Hdec; [reflexivity|reflexivity|right; reflexivity].
  - rewrite Hreg in Hn. discriminate.
Qed.

(** X11.  Without tools the [tool_choice] of [call_llm] has no effect: a
    missing tool list and an empty one send the same request, whatever
    the choice. *)
Theorem call_llm_without_tools :
  forall messages tool_choice1 tool_choice2 (st : State W),
    Agent.call_llm E messages None tool_choice1 st
    = Agent.call_llm E messages (Some []) tool_choice2 st
    /\ Agent.call_llm E messages None tool_choice1 st
       = (fst (chat_completions_create E (mkRequest "gpt-4o-mini" messages None)
                 (world st)),
          Spec.after_reply E
            (snd (chat_completions_create E
                    (mkRequest "gpt-4o-mini" messages None) (world st)))
            st).
Proof.
  intros messages c1 c2 st. split; [reflexivity|].
  unfold Agent.call_llm. unfold_monad. cbn.
  destruct (chat_completions_create E (mkRequest "gpt-4o-mini" messages None)
              (world st)) as [[r|e] w]; reflexivity.
Qed.

End ArgumentBinding.

Lemma ill_formed_arguments_fail_witness :
  exists text,
    Agent.execute_tool Scripted.env "calculate"
      (VDict [("expr", VStr "1 + 1")]) (Scripted.start [])
    = (Returned [("success", VBool false);
                 ("error", VStr ("Tool execution failed: " ++ text))],
       mkState [] [mkObs SPAN "execute_tool"; mkObs TOOL "calculate"]).
Proof.
  apply (ill_formed_arguments_fail Scripted.env "calculate"
           (VDict [("expr", VStr "1 + 1")]) (Scripted.start []));
    reflexivity.
Defined.

(** A keyword of the tracing wrapper does not reach the tool: with one
    besides its expression, [calculate] is called as without it. *)
Example wrapper_keyword_is_dropped :
  fst (Agent.execute_tool Scripted.env "calculate"
         (VDict [("expression", VStr "1+1"); ("langfuse_trace_id", VStr "abc")])
         (Scripted.start []))
  = Returned [("success", VBool true); ("expression", VStr "1+1");
              ("result", VInt 2)]
  /\ Main.ill_formed "calculate"
       (VDict [("expression", VStr "1+1"); ("langfuse_trace_id", VStr "abc")])
     = false.
Proof. split; reflexivity. Qed.

(** A value that is not a mapping: the error names the function with its
    module. *)
Example not_a_mapping :
  fst (Agent.execute_tool Scripted.env "calculate" (VList []) (Scripted.start []))
  = Returned [("success", VBool false);
              ("error",
               VStr "Tool execution failed: tools.calculate() argument after ** must be a mapping, not list")].
Proof. reflexivity. Qed.

(* ===================================================================== *)
(** ** Further properties of the loop *)
(* ===================================================================== *)

Section RunMore.

Context (E : Env).

Local Abbreviation W := (World E).

(** X12.  With a ceiling that is zero or negative [run_agent] calls the
    model not even once: it returns the failure result with [iterations]
    zero, the conversation being the two initial messages. *)
Theorem nonpositive_ceiling_makes_no_call :
  forall user_query user_id session_id max_iterations (st : State W),
    max_iterations <= 0 ->
    Agent.run_agent_conversation E user_query user_id session_id
      max_iterations st
    = (Returned
         (Agent.failure_result 0
            (get_trace_url E (world (snd (Spec.resolve_session E session_id st))))
            (get_current_trace_id E
               (world (snd (Spec.resolve_session E session_id st))))
            (fst (Spec.resolve_session E session_id st)),
          Agent.initial_messages user_query),
       snd (Spec.resolve_session E session_id st))
    /\ count_obs AGENT (trace (snd (Spec.resolve_session E session_id st)))
       = count_obs AGENT (trace st).
Proof.
  intros user_query user_id session_id max_iterations st Hmax.
  split; [|apply resolve_session_calls].
  rewrite run_agent_conversation_unfold.
  replace (Z.to_nat max_iterations) with O by lia. reflexivity.
Qed.

Lemma agent_loop_calls :
  forall session_id n iteration messages (st : State W),
    (count_obs AGENT (trace (snd (Agent.agent_loop E session_id n iteration
                                    messages st)))
     <= count_obs AGENT (trace st) + n)%nat.
Proof.
  intros session_id n. induction n as [|n IH]; intros iteration messages st.
  - rewrite agent_loop_ceiling. cbn [snd]. lia.
  - rewrite agent_loop_unfold.
    destruct (Agent.loop_body E session_id (iteration + 1) messages st)
      as [[[m|r m]|e] st1] eqn:Hbody;
      apply loop_body_one_call in Hbody.
    + specialize (IH (iteration + 1) m st1). lia.
    + cbn [snd]. lia.
    + cbn [snd]. lia.
Qed.

(** X13.  However a run ends, with a result or with an exception, it has
    made at most as many model calls as the ceiling allows. *)
Theorem model_calls_bounded :
  forall user_query user_id session_id max_iterations (st : State W),
    (count_obs AGENT
       (trace (snd (Agent.run_agent E user_query user_id session_id
                      max_iterations st)))
     <= count_obs AGENT (trace st) + Z.to_nat max_iterations)%nat.
Proof.
  intros user_query user_id session_id max_iterations st.
  rewrite run_agent_unfold, run_agent_conversation_unfold.
  pose proof (agent_loop_calls (fst (Spec.resolve_session E session_id st))
                (Z.to_nat max_iterations) 0 (Agent.initial_messages user_query)
                (snd (Spec.resolve_session E session_id st))) as H.
  rewrite resolve_session_calls in H.
  destruct (Agent.agent_loop E _ _ _ _ _) as [[r|e] st']; exact H.
Qed.

(** What the loop returns, with the number [k] of passes it made. *)
Lemma agent_loop_returns :
  forall session_id n iteration messages (st : State W) result messages' st',
    Agent.agent_loop E session_id n iteration messages st
    = (Returned (result, messages'), st') ->
    exists k,
      (k <= n)%nat
      /\ count_obs AGENT (trace st') = (count_obs AGENT (trace st) + k)%nat
      /\ dict_get "iterations" result = Some (VInt (iteration + Z.of_nat k))
      /\ dict_get "session_id" result = Some (VStr session_id)
      /\ match dict_get "success" result with
         | Some (VBool true) =>
             (1 <= k)%nat
             /\ exists reply,
                  messages' <> []
                  /\ last messages' [] = Agent.assistant_entry reply
                  /\ dict_get "answer" result = Some (of_opt_str (content reply))
         | _ => k = n
         end.
Proof.
  intros session_id n. induction n as [|n IH];
    intros iteration messages st result messages' st' H.
  - rewrite agent_loop_ceiling in H. inversion H; subst.
    exists O. split; [lia|]. split; [lia|].
    split; [cbn [dict_get Agent.failure_result String.eqb Ascii.eqb Bool.eqb];
            f_equal; f_equal; lia|].
    split; reflexivity.
  - rewrite agent_loop_unfold in H.
    destruct (Agent.loop_body E session_id (iteration + 1) messages st)
      as [[[m|r m]|e] st1] eqn:Hbody; [| |discriminate].
    + pose proof (loop_body_one_call E _ _ _ _ _ _ Hbody) as Hone.
      destruct (IH _ _ _ _ _ _ H) as [k [Hk [Hc [Hi [Hs Hm]]]]].
      exists (S k). split; [lia|]. split; [lia|].
      split; [rewrite Hi; f_equal; f_equal; lia|]. split; [exact Hs|].
      destruct (dict_get "success" result) as [[| [|] | | | | | | | |]|];
        try (f_equal; exact Hm).
      destruct Hm as [Hk1 Hlast]. split; [lia|exact Hlast].
    + pose proof (loop_body_one_call E _ _ _ _ _ _ Hbody) as Hone.
      inversion H; subst. rewrite loop_body_unfold in Hbody.
      destruct (chat_completions_create E (Spec.llm_request messages) (world st))
        as [[response|e] w']; [|discriminate].
      cbv zeta in Hbody. destruct (Agent.wants_tools response).
      * destruct (Agent.run_tool_calls E _ _ _) as [[m2|e] s]; discriminate.
      * destruct (String.eqb (finish_reason response) "stop"); [|discriminate].
        inversion Hbody; subst. exists 1%nat.
        split; [lia|]. split; [lia|]. split; [reflexivity|].
        split; [reflexivity|]. cbn [dict_get Agent.success_result String.eqb
                                    Ascii.eqb Bool.eqb].
        split; [lia|]. exists response. split.
        -- intros Hnil. apply app_eq_nil in Hnil. destruct Hnil; discriminate.
        -- split; [apply last_last|reflexivity].
Qed.

Lemma run_agent_conversation_of_run :
  forall user_query user_id session_id max_iterations (st : State W) result st',
    Agent.run_agent E user_query user_id session_id max_iterations st
    = (Returned result, st') ->
    exists conversation,
      Agent.agent_loop E (fst (Spec.resolve_session E session_id st))
        (Z.to_nat max_iterations) 0 (Agent.initial_messages user_query)
        (snd (Spec.resolve_session E session_id st))
      = (Returned (result, conversation), st').
Proof.
  intros until st'. intros H.
  rewrite run_agent_unfold, run_agent_conversation_unfold in H.
  destruct (Agent.agent_loop E _ _ _ _ _) as [[[r m]|e] s]; [|discriminate].
  inversion H; subst. exists m. reflexivity.
Qed.

(** X14.  In every result [run_agent] returns, [iterations] is the number
    of model calls the run made; it never exceeds the ceiling, it is at
    least one in a success result and it is the ceiling (zero for a
    negative one) in a failure result. *)
Theorem iterations_count_model_calls :
  forall user_query user_id session_id max_iterations (st : State W) result st',
    Agent.run_agent E user_query user_id session_id max_iterations st
    = (Returned result, st') ->
    exists k,
      dict_get "iterations" result = Some (VInt (Z.of_nat k))
      /\ count_obs AGENT (trace st') = (count_obs AGENT (trace st) + k)%nat
      /\ (k <= Z.to_nat max_iterations)%nat
      /\ match dict_get "success" result with
         | Some (VBool true) => (1 <= k)%nat
         | _ => k = Z.to_nat max_iterations
         end.
Proof.
  intros until st'. intros H.
  destruct (run_agent_conversation_of_run _ _ _ _ _ _ _ H) as [m Hloop].
  destruct (agent_loop_returns _ _ _ _ _ _ _ _ Hloop)
    as [k [Hk [Hc [Hi [_ Hm]]]]].
  exists k. rewrite resolve_session_calls in Hc.
  split; [exact Hi|]. split; [exact Hc|]. split; [exact Hk|].
  destruct (dict_get "success" result) as [[| [|] | | | | | | | |]|];
    try exact Hm.
  destruct Hm as [Hk1 _]. exact Hk1.
Qed.

Lemma substring_length : forall n s,
  (String.length (substring 0 n s) <= n)%nat.
Proof.
  induction n as [|n IH]; intros s.
  - destruct s; cbn; lia.
  - destruct s as [|c s]; cbn; [lia|]. specialize (IH s). lia.
Qed.

(** X15.  Every result [run_agent] returns carries the session it ran
    under: the identifier the caller gave, or, when none was given, the
    first eight characters of a fresh UUID. *)
Theorem result_carries_session :
  forall user_query user_id session_id max_iterations (st : State W) result st',
    Agent.run_agent E user_query user_id session_id max_iterations st
    = (Returned result, st') ->
    exists session,
      dict_get "session_id" result = Some (VStr session)
      /\ match session_id with
         | Some given => session = given
         | None =>
             session = substring 0 8 (fst (uuid4_str E (world st)))
             /\ (String.length session <= 8)%nat
         end.
Proof.
  intros until st'. intros H.
  destruct (run_agent_conversation_of_run _ _ _ _ _ _ _ H) as [m Hloop].
  destruct (agent_loop_returns _ _ _ _ _ _ _ _ Hloop)
    as [k [_ [_ [_ [Hs _]]]]].
  exists (fst (Spec.resolve_session E session_id st)). split; [exact Hs|].
  unfold Spec.resolve_session. destruct session_id as [given|]; [reflexivity|].
  destruct (uuid4_str E (world st)) as [u w]. cbn [fst].
  split; [reflexivity|apply substring_length].
Qed.

End RunMore.

Section ConversationMore.

Context (E : Env).

Local Abbreviation W := (World E).

Lemma tool_entries_count : forall calls texts,
  List.length texts = List.length calls ->
  List.length (Spec.tool_entries calls texts) = List.length calls
  /\ filter (Spec.role_is "tool") (Spec.tool_entries calls texts)
     = Spec.tool_entries calls texts
  /\ forallb Main.reply_or_tool (Spec.tool_entries calls texts) = true.
Proof.
  induction calls as [|tc rest IH]; intros texts Hlen.
  - repeat split.
  - destruct texts as [|text texts]; [discriminate|].
    injection Hlen as Hlen. destruct (IH texts Hlen) as [H1 [H2 H3]].
    unfold Spec.tool_entries in *. cbn [combine map fst snd].
    split; [cbn [List.length]; rewrite H1; reflexivity|].
    split.
    + cbn [filter].
      replace (Spec.role_is "tool" (Agent.tool_entry tc text)) with true
        by reflexivity.
      rewrite H2. reflexivity.
    + cbn [forallb].
      replace (Main.reply_or_tool (Agent.tool_entry tc text)) with true
        by reflexivity.
      exact H3.
Qed.

Lemma count_named_app : forall name a b,
  count_named name (a ++ b) = (count_named name a + count_named name b)%nat.
Proof.
  intros. unfold count_named. rewrite filter_app, length_app. reflexivity.
Qed.

Lemma registered_not_dispatch : forall tool_name,
  Main.registered tool_name = true ->
  String.eqb tool_name "execute_tool" = false.
Proof.
  intros tool_name H. unfold Main.registered in H. cbn [existsb] in H.
  destruct (String.eqb tool_name "calculate") eqn:H1;
    [apply String.eqb_eq in H1; subst; reflexivity|].
  destruct (String.eqb tool_name "get_current_time") eqn:H2;
    [apply String.eqb_eq in H2; subst; reflexivity|].
  destruct (String.eqb tool_name "get_random_fact") eqn:H3;
    [apply String.eqb_eq in H3; subst; reflexivity|].
  discriminate.
Qed.

(** Each dispatch records exactly one span of [execute_tool]. *)
Lemma execute_tool_one_span : forall tool_name tool_arguments (st : State W) o st',
  Agent.execute_tool E tool_name tool_arguments st = (o, st') ->
  count_named "execute_tool" (trace st')
  = S (count_named "execute_tool" (trace st)).
Proof.
  intros tool_name tool_arguments st o st' H.
  pose proof (execute_tool_trace E tool_name tool_arguments st) as Ht.
  rewrite H in Ht. cbn [snd] in Ht. rewrite Ht, count_named_app.
  unfold Main.dispatch_observations.
  assert (Htail : count_named "execute_tool"
                    match tool_arguments with
                    | VDict _ =>
                        if Main.registered tool_name
                        then [mkObs TOOL tool_name] else []
                    | _ => []
                    end = O).
  { destruct tool_arguments; try reflexivity.
    destruct (Main.registered tool_name) eqn:Hreg; [|reflexivity].
    unfold count_named. cbn [filter obs_name].
    rewrite (registered_not_dispatch _ Hreg). reflexivity. }
  change (count_named "execute_tool" (mkObs SPAN "execute_tool" :: ?l))
    with (S (count_named "execute_tool" l)).
  unfold count_named at 2. cbn [filter obs_name].
  replace (String.eqb "execute_tool" "execute_tool") with true by reflexivity.
  cbn [List.length]. fold (count_named "execute_tool"
    match tool_arguments with
    | VDict _ => if Main.registered tool_name then [mkObs TOOL tool_name] else []
    | _ => []
    end).
  rewrite Htail. lia.
Qed.

(** A round that returns has dispatched once for each call. *)
Lemma run_tool_calls_spans : forall calls messages (st : State W) messages' st',
  Agent.run_tool_calls E calls messages st = (Returned messages', st') ->
  count_named "execute_tool" (trace st')
  = (count_named "execute_tool" (trace st) + List.length calls)%nat.
Proof.
  induction calls as [|tc rest IH]; intros messages st messages' st' H.
  - inversion H; subst. cbn. lia.
  - rewrite run_tool_calls_cons in H.
    destruct (json_loads E (function_arguments tc)) as [a|e]; [|discriminate].
    destruct (Agent.execute_tool E (function_name tc) a st) as [[d|e] st1] eqn:Hx;
      [|discriminate].
    apply execute_tool_one_span in Hx.
    destruct (Agent.json_dumps E (VDict d)) as [text|e]; [|discriminate].
    apply IH in H. cbn [List.length]. lia.
Qed.

(** What a pass that does not raise does to the conversation and to the
    spans of [execute_tool]. *)
Lemma loop_body_extends :
  forall session_id iteration messages (st : State W) step st',
    Agent.loop_body E session_id iteration messages st = (Returned step, st') ->
    exists added,
      match step with
      | Agent.Continue m => m
      | Agent.Return _ m => m
      end = (messages ++ added)%list
      /\ forallb Main.reply_or_tool added = true
      /\ (List.length (filter (Spec.role_is "tool") added)
          + count_named "execute_tool" (trace st)
          = count_named "execute_tool" (trace st'))%nat.
Proof.
  intros session_id iteration messages st step st' H.
  rewrite loop_body_unfold in H.
  assert (Hreply : forall w,
             count_named "execute_tool" (trace (Spec.after_reply E w st))
             = count_named "execute_tool" (trace st)).
  { intros w. cbn [Spec.after_reply trace]. rewrite count_named_app.
    cbn. lia. }
  destruct (chat_completions_create E (Spec.llm_request messages) (world st))
    as [[response|e] w']; [|discriminate].
  cbv zeta in H. destruct (Agent.wants_tools response).
  - destruct (Agent.run_tool_calls E _ _ _) as [[m|e] s] eqn:Hround;
      [|discriminate].
    inversion H; subst.
    pose proof (run_tool_calls_spans _ _ _ _ _ Hround) as Hspans.
    apply run_tool_calls_shape in Hround.
    destruct Hround as [texts [Hlen Hm]]. subst m.
    destruct (tool_entries_count _ _ Hlen) as [Hcount [Hfilter Hall]].
    exists (Agent.assistant_entry response
            :: Spec.tool_entries (Agent.requested_calls response) texts).
    split; [rewrite <- app_assoc; reflexivity|]. split.
    + cbn [forallb]. rewrite Hall. reflexivity.
    + cbn [filter]. rewrite assistant_not_tool, Hfilter, Hcount.
      rewrite Hspans, Hreply. lia.
  - destruct (String.eqb (finish_reason response) "stop");
      inversion H; subst; exists [Agent.assistant_entry response];
      (split; [reflexivity|]); (split; [reflexivity|]);
      rewrite Hreply; reflexivity.
Qed.

Lemma agent_loop_extends :
  forall session_id n iteration messages (st : State W) result messages' st',
    Agent.agent_loop E session_id n iteration messages st
    = (Returned (result, messages'), st') ->
    exists added,
      messages' = (messages ++ added)%list
      /\ forallb Main.reply_or_tool added = true
      /\ (List.length (filter (Spec.role_is "tool") added)
          + count_named "execute_tool" (trace st)
          = count_named "execute_tool" (trace st'))%nat.
Proof.
  intros session_id n. induction n as [|n IH];
    intros iteration messages st result messages' st' H.
  - rewrite agent_loop_ceiling in H. inversion H; subst. exists [].
    rewrite app_nil_r. repeat split.
  - rewrite agent_loop_unfold in H.
    destruct (Agent.loop_body E session_id (iteration + 1) messages st)
      as [[[m|r m]|e] st1] eqn:Hbody; [| |discriminate].
    + destruct (loop_body_extends _ _ _ _ _ _ Hbody) as [a1 [H1 [H2 H3]]].
      destruct (IH _ _ _ _ _ _ H) as [a2 [H4 [H5 H6]]].
      cbn beta iota in H1. subst m. exists (a1 ++ a2)%list.
      split; [rewrite H4, app_assoc; reflexivity|].
      split; [rewrite forallb_app, H2, H5; reflexivity|].
      rewrite filter_app, length_app. lia.
    + inversion H; subst.
      destruct (loop_body_extends _ _ _ _ _ _ Hbody) as [a1 [H1 [H2 H3]]].
      exists a1. split; [exact H1|]. split; [exact H2|exact H3].
Qed.

(** X16.  The conversation of a run that returns begins with the system
    message and the user's query, and everything after them is a reply of
    the assistant or a tool message; there is one tool message for each
    dispatch of [execute_tool] the run made. *)
Theorem conversation_grows_from_query :
  forall user_query user_id session_id max_iterations (st : State W)
         result conversation st',
    Agent.run_agent_conversation E user_query user_id session_id
      max_iterations st = (Returned (result, conversation), st') ->
    exists added,
      conversation
      = ([("role", VStr "system"); ("content", VStr Agent.system_prompt)]
         :: [("role", VStr "user"); ("content", VStr user_query)]
         :: added)
      /\ forallb Main.reply_or_tool added = true
      /\ (List.length (filter (Spec.role_is "tool") conversation)
          + count_named "execute_tool" (trace st)
          = count_named "execute_tool" (trace st'))%nat.
Proof.
  intros until st'. intros H. rewrite run_agent_conversation_unfold in H.
  destruct (agent_loop_extends _ _ _ _ _ _ _ _ H) as [added [Hm [Hall Hcount]]].
  exists added. split; [exact Hm|]. split; [exact Hall|].
  rewrite Hm. rewrite resolve_session_trace, count_named_app in Hcount.
  cbn [Agent.initial_messages app filter]. cbn in Hcount |- *. lia.
Qed.

(** X17.  A success result answers with the last message of the
    conversation: that message is the reply of the assistant the loop
    returned on, and [answer] is its content. *)
Theorem answer_is_last_reply :
  forall user_query user_id session_id max_iterations (st : State W)
         result conversation st',
    Agent.run_agent_conversation E user_query user_id session_id
      max_iterations st = (Returned (result, conversation), st') ->
    dict_get "success" result = Some (VBool true) ->
    exists reply,
      conversation <> []
      /\ last conversation [] = Agent.assistant_entry reply
      /\ dict_get "answer" result = Some (of_opt_str (content reply))
      /\ dict_get "content" (last conversation [])
         = dict_get "answer" result.
Proof.
  intros until st'. intros H Hs. rewrite run_agent_conversation_unfold in H.
  destruct (agent_loop_returns E _ _ _ _ _ _ _ _ H)
    as [k [_ [_ [_ [_ Hm]]]]].
  rewrite Hs in Hm. destruct Hm as [_ [reply [Hne [Hlast Hans]]]].
  exists reply. split; [exact Hne|]. split; [exact Hlast|].
  split; [exact Hans|]. rewrite Hlast, Hans. reflexivity.
Qed.

(** X18.  A reply whose finish reason is [tool_calls] but which carries
    no call (none, or an empty list) executes no tool and is not final:
    the pass appends the reply alone and the loop goes on. *)
Theorem empty_tool_request_continues :
  forall session_id iteration messages (st : State W) response w',
    chat_completions_create E (Spec.llm_request messages) (world st)
    = (Returned response, w') ->
    finish_reason response = "tool_calls" ->
    truthy_list (tool_calls response) = false ->
    Agent.loop_body E session_id iteration messages st
    = (Returned (Agent.Continue (messages ++ [Agent.assistant_entry response])),
       Spec.after_reply E w' st).
Proof.
  intros session_id iteration messages st response w' Hcall Hreason Hcalls.
  rewrite loop_body_unfold, Hcall. cbv zeta.
  unfold Agent.wants_tools. rewrite Hcalls, andb_false_r, Hreason.
  reflexivity.
Qed.

(** X19.  A result of [calculate] that [json.dumps] rejects is not
    absorbed: when a reply's first call is a [calculate] whose value the
    encoder cannot write, serialising the tool result raises out of the
    pass, after the tool has run. *)
Theorem unserialisable_result_raises :
  forall session_id iteration messages (st : State W) response w'
         tool_call rest s v rejected,
    chat_completions_create E (Spec.llm_request messages) (world st)
    = (Returned response, w') ->
    finish_reason response = "tool_calls" ->
    tool_calls response = Some (tool_call :: rest) ->
    function_name tool_call = "calculate" ->
    json_loads E (function_arguments tool_call)
    = Returned (VDict [("expression", VStr s)]) ->
    py_eval E s = Returned v ->
    json_reject v = Some rejected ->
    exists e,
      Agent.json_dumps E (VDict (Spec.success_of s v)) = Raised e
      /\ Agent.loop_body E session_id iteration messages st
         = (Raised e,
            Spec.logged E TOOL "calculate"
              (Spec.logged E SPAN "execute_tool" (Spec.after_reply E w' st))).
Proof.
  intros session_id iteration messages st response w' tool_call rest s v
         rejected Hcall Hreason Hcalls Hname Hargs Heval Hreject.
  assert (Hdumps : exists e,
             Agent.json_dumps E (VDict (Spec.success_of s v)) = Raised e).
  { unfold Agent.json_dumps, Spec.success_of. cbn [json_reject snd].
    rewrite Hreject. destruct rejected; eexists; reflexivity. }
  destruct Hdumps as [e He]. exists e. split; [exact He|].
  rewrite loop_body_unfold, Hcall. cbv zeta.
  unfold Agent.wants_tools, Agent.requested_calls. rewrite Hreason, Hcalls.
  replace (String.eqb "tool_calls" "tool_calls") with true by reflexivity.
  cbn [truthy_list andb].
  rewrite run_tool_calls_cons, Hargs, Hname.
  rewrite execute_tool_calculate.
  rewrite (calculate_returned E _ _ Heval), He. reflexivity.
Qed.

End ConversationMore.

(* ===================================================================== *)
(** ** The entry point *)
(* ===================================================================== *)

(** X20.  The [__main__] block reads [answer] from whatever [run_agent]
    returns: on a success result it prints the six fields and the
    result; on a failure result, which has no [answer], it raises
    [KeyError] after the run. *)
Theorem main_reads_answer :
  forall (E : Env) (st : State (World E)) i w result st',
    randbelow E 3 (world st) = (i, w) ->
    Agent.run_agent E
      (nth (i mod 3) Main.user_prompts "What is 25 multiplied by 4?")
      "test_user" None 10 (mkState w (trace st))
    = (Returned result, st') ->
    (dict_get "success" result = Some (VBool false)
     /\ Main.main E st = (Raised (mkExn "KeyError" "'answer'"), st'))
    \/ (dict_get "success" result = Some (VBool true)
        /\ exists answer iterations url id session,
             Main.main E st
             = (Returned [VBool true; answer; VInt iterations; url; id;
                          VStr session; VDict result], st')).
Proof.
  intros E st i w result st' Hdraw Hrun.
  assert (Hmain : Main.main E st
                  = bind (lift (Main.subscript result "success"))
                      (fun success =>
                         bind (lift (Main.subscript result "answer"))
                           (fun answer =>
                              bind (lift (Main.subscript result "iterations"))
                                (fun iterations =>
                                   bind (lift (Main.subscript result "trace_url"))
                                     (fun trace_url =>
                                        bind (lift (Main.subscript result "trace_id"))
                                          (fun trace_id =>
                                             bind (lift (Main.subscript result "session_id"))
                                               (fun session_id =>
                                                  ret [success; answer; iterations;
                                                       trace_url; trace_id; session_id;
                                                       VDict result]))))))
                      st').
  { unfold Main.main, Main.pick. unfold bind at 1. unfold bind at 1.
    unfold ask at 1. cbn [List.length Main.user_prompts] in *.
    rewrite Hdraw. unfold ret at 1. unfold bind at 1. rewrite Hrun.
    reflexivity. }
  rewrite Hmain.
  destruct (run_agent_conversation_of_run E _ _ _ _ _ _ _ Hrun) as [m Hloop].
  destruct (agent_loop_result E _ _ _ _ _ _ _ _ Hloop)
    as [[a [k [u [t Hr]]]]|[k [u [t Hr]]]]; subst result.
  - right. split; [reflexivity|]. eexists. eexists. eexists. eexists. eexists.
    reflexivity.
  - left. split; reflexivity.
Qed.

Lemma main_reads_answer_witness :
  Main.main Scripted.env
    (Scripted.start (repeat (Scripted.truncated "The answer is") 10))
  = (Raised (mkExn "KeyError" "'answer'"),
     mkState [] (mkObs SPAN "run_agent" :: repeat (mkObs AGENT "call_llm") 10)).
Proof.
  destruct (main_reads_answer Scripted.env
              (Scripted.start (repeat (Scripted.truncated "The answer is") 10))
              O (repeat (Scripted.truncated "The answer is") 10)
              (Agent.failure_result 10 (VStr "https://cloud.langfuse.com/trace/t1")
                 (VStr "t1") "123e4567")
              (mkState []
                 (mkObs SPAN "run_agent" :: repeat (mkObs AGENT "call_llm") 10)))
    as [[_ H]|[H _]].
  - reflexivity.
  - reflexivity.
  - exact H.
  - discriminate H.
Defined.

(* ===================================================================== *)
(** ** Properties of inspect_trace *)
(* ===================================================================== *)

Module InspectionFacts.

Import TraceInspection.

Lemma get_set_same : forall k n d, get_count k (set_count k n d) = n.
Proof.
  induction d as [|[k' n'] d IH]; cbn.
  - rewrite String.eqb_refl. reflexivity.
  - destruct (String.eqb k k') eqn:Hk; cbn; rewrite Hk; [reflexivity|exact IH].
Qed.

Lemma get_set_other : forall k k' n d,
  String.eqb k k' = false -> get_count k (set_count k' n d) = get_count k d.
Proof.
  intros k k' n d Hk. induction d as [|[k2 n2] d IH]; cbn.
  - rewrite Hk. reflexivity.
  - destruct (String.eqb k' k2) eqn:H2; cbn.
    + apply String.eqb_eq in H2. subst k2. rewrite Hk. reflexivity.
    + destruct (String.eqb k k2); [reflexivity|exact IH].
Qed.

Lemma set_count_keys : forall k n d,
  In k (map fst d) ->
  map fst (set_count k n d) = map fst d.
Proof.
  intros k n d. induction d as [|[k' n'] d IH]; cbn; intros Hin; [contradiction|].
  destruct (String.eqb k k') eqn:Hk; cbn; [reflexivity|].
  f_equal. apply IH. destruct Hin as [Heq|Hin]; [|exact Hin].
  subst k'. rewrite String.eqb_refl in Hk. discriminate.
Qed.

Lemma set_count_new_key : forall k n d,
  ~ In k (map fst d) ->
  map fst (set_count k n d) = (map fst d ++ [k])%list.
Proof.
  intros k n d. induction d as [|[k' n'] d IH]; cbn; intros Hin; [reflexivity|].
  destruct (String.eqb k k') eqn:Hk.
  - apply String.eqb_eq in Hk. subst k'. contradiction Hin. left. reflexivity.
  - cbn. f_equal. apply IH. intros H. apply Hin. right. exact H.
Qed.

Lemma set_count_nodup : forall k n d,
  NoDup (map fst d) -> NoDup (map fst (set_count k n d)).
Proof.
  intros k n d Hd. destruct (in_dec string_dec k (map fst d)) as [Hin|Hin].
  - rewrite set_count_keys by exact Hin. exact Hd.
  - rewrite set_count_new_key by exact Hin.
    apply NoDup_app; [exact Hd|constructor; [intros []|constructor]|].
    intros x Hx [Hk|[]]. subst x. contradiction.
Qed.


Lemma set_count_sum : forall k d,
  sum_counts (set_count k (get_count k d + 1) d) = sum_counts d + 1.
Proof.
  intros k d. unfold sum_counts. induction d as [|[k' n'] d IH]; cbn.
  - lia.
  - destruct (String.eqb k k'); cbn; lia.
Qed.

(** What the loop over the observations keeps, from any inspection on. *)
Lemma fold_record : forall observations inspection,
  let final := fold_left record_observation observations inspection in
  inspected_trace_id final = inspected_trace_id inspection
  /\ total_observations final = total_observations inspection
  /\ (forall k,
        get_count k (observation_types final)
        = get_count k (observation_types inspection)
          + Z.of_nat (List.length (filter (has_type k) observations)))
  /\ sum_counts (observation_types final)
     = sum_counts (observation_types inspection)
       + Z.of_nat (List.length observations)
  /\ (NoDup (map fst (observation_types inspection)) ->
      NoDup (map fst (observation_types final)))
  /\ llm_calls final
     = (llm_calls inspection
        ++ map entry_of (filter (has_type "AGENT") observations))%list
  /\ tool_calls final
     = (tool_calls inspection
        ++ map entry_of (filter (has_type "TOOL") observations))%list.
Proof.
  induction observations as [|obs rest IH]; intros inspection.
  - cbn. rewrite !app_nil_r. repeat split; try lia. intros H; exact H.
  - cbn [fold_left]. specialize (IH (record_observation inspection obs)).
    cbv zeta in *. destruct IH as [H1 [H2 [H3 [H4 [H5 [H6 H7]]]]]].
    assert (Htypes : observation_types (record_observation inspection obs)
                     = set_count (type_of obs)
                         (get_count (type_of obs) (observation_types inspection) + 1)
                         (observation_types inspection)).
    { unfold record_observation.
      destruct (String.eqb (type_of obs) "AGENT"); [reflexivity|].
      destruct (String.eqb (type_of obs) "TOOL"); reflexivity. }
    assert (Hid : inspected_trace_id (record_observation inspection obs)
                  = inspected_trace_id inspection
                  /\ total_observations (record_observation inspection obs)
                     = total_observations inspection).
    { unfold record_observation.
      destruct (String.eqb (type_of obs) "AGENT"); [split; reflexivity|].
      destruct (String.eqb (type_of obs) "TOOL"); split; reflexivity. }
    destruct Hid as [Hid Htotal].
    split; [congruence|]. split; [congruence|]. split.
    { intros k. rewrite H3, Htypes. cbn [filter]. unfold has_type at 2.
      destruct (String.eqb (type_of obs) k) eqn:Hk.
      - apply String.eqb_eq in Hk. subst k. rewrite get_set_same.
        cbn [List.length]. lia.
      - rewrite get_set_other by (rewrite String.eqb_sym; exact Hk). lia. }
    split.
    { rewrite H4, Htypes, set_count_sum. cbn [List.length]. lia. }
    split.
    { intros Hnd. apply H5. rewrite Htypes. apply set_count_nodup. exact Hnd. }
    split.
    { rewrite H6. cbn [filter]. unfold has_type at 2. unfold record_observation.
      destruct (String.eqb (type_of obs) "AGENT") eqn:Ha.
      - cbn [llm_calls map]. rewrite <- app_assoc. reflexivity.
      - destruct (String.eqb (type_of obs) "TOOL"); reflexivity. }
    { rewrite H7. cbn [filter]. unfold has_type at 2. unfold record_observation.
      destruct (String.eqb (type_of obs) "AGENT") eqn:Ha.
      - apply String.eqb_eq in Ha. rewrite Ha. reflexivity.
      - destruct (String.eqb (type_of obs) "TOOL") eqn:Ht.
        + cbn [tool_calls map]. rewrite <- app_assoc. reflexivity.
        + reflexivity. }
Qed.

(** X21.  The inspection of a trace counts every observation once under
    its type ([unknown] where it has none): for each type the counter
    holds the number of observations of that type, [llm_calls] lists the
    observations of type [AGENT] and [tool_calls] those of type [TOOL],
    in the order of the trace, so that their lengths are the counts of
    the two types. *)
Theorem inspection_counts_by_type :
  forall trace_id observations k,
    get_count k (observation_types (categorize trace_id observations))
    = Z.of_nat (List.length (filter (has_type k) observations))
    /\ llm_calls (categorize trace_id observations)
       = map entry_of (filter (has_type "AGENT") observations)
    /\ tool_calls (categorize trace_id observations)
       = map entry_of (filter (has_type "TOOL") observations)
    /\ Z.of_nat (List.length (llm_calls (categorize trace_id observations)))
       = get_count "AGENT" (observation_types (categorize trace_id observations))
    /\ Z.of_nat (List.length (tool_calls (categorize trace_id observations)))
       = get_count "TOOL" (observation_types (categorize trace_id observations)).
Proof.
  intros trace_id observations k. unfold categorize.
  destruct (fold_record observations
              (mkInspection trace_id (Z.of_nat (List.length observations)) [] [] []))
    as [_ [_ [H3 [_ [_ [H6 H7]]]]]].
  cbv zeta in *. cbn [observation_types llm_calls tool_calls get_count app] in *.
  split; [rewrite H3; lia|]. split; [exact H6|]. split; [exact H7|].
  split.
  - rewrite H6, H3, length_map. lia.
  - rewrite H7, H3, length_map. lia.
Qed.

(** X22.  The counter of an inspection has each type once, and its counts
    add up to [total_observations], the length of the trace. *)
Theorem inspection_counts_add_up :
  forall trace_id observations,
    total_observations (categorize trace_id observations)
    = Z.of_nat (List.length observations)
    /\ sum_counts (observation_types (categorize trace_id observations))
       = total_observations (categorize trace_id observations)
    /\ NoDup (map fst (observation_types (categorize trace_id observations)))
    /\ inspected_trace_id (categorize trace_id observations) = trace_id.
Proof.
  intros trace_id observations. unfold categorize.
  destruct (fold_record observations
              (mkInspection trace_id (Z.of_nat (List.length observations)) [] [] []))
    as [H1 [H2 [_ [H4 [H5 _]]]]].
  cbv zeta in *. cbn [observation_types total_observations inspected_trace_id] in *.
  split; [exact H2|]. split; [rewrite H4, H2; reflexivity|].
  split; [apply H5; constructor|exact H1].
Qed.

Section Waiting.

Context (S : Service).

(** While every fetch fails, the waiting loop gives up at its last pass. *)
Lemma wait_gives_up : forall trace_id max_wait remaining i (st : State (Remote S)),
  (forall r, exists e r', trace_get S trace_id r = (Raised e, r')) ->
  Z.of_nat (Datatypes.S remaining) = max_wait - i ->
  exists st',
    wait_for_trace S trace_id max_wait (Datatypes.S remaining) i st
    = (Returned GaveUp, st')
    /\ trace st' = trace st.
Proof.
  intros trace_id max_wait remaining. induction remaining as [|remaining IH];
    intros i st Hfail Hleft.
  - cbn [wait_for_trace]. unfold try_except, bind, request.
    destruct (Hfail (world st)) as [e [r' Hget]]. rewrite Hget.
    replace (Z.ltb i (max_wait - 1)) with false by (symmetry; apply Z.ltb_ge; lia).
    eexists. split; reflexivity.
  - remember (Datatypes.S remaining) as n eqn:Hn.
    cbn [wait_for_trace]. unfold try_except, bind at 1. unfold request at 1.
    destruct (Hfail (world st)) as [e [r' Hget]]. rewrite Hget.
    replace (Z.ltb i (max_wait - 1)) with true by (symmetry; apply Z.ltb_lt; lia).
    unfold bind at 1. unfold ask at 1. cbn [world trace].
    subst n.
    destruct (IH (i + 1) (mkState (sleep S 1 r') (trace st)) Hfail) as [st' [Hw Ht]];
      [lia|].
    rewrite Hw. exists st'. split; [reflexivity|exact Ht].
Qed.

(** X23.  When the trace cannot be fetched, in whatever state the service
    is, [inspect_trace] with a wait of at least one returns [None]: every
    exception of the fetch is swallowed, none is raised. *)
Theorem inspect_trace_gives_up :
  forall trace_id max_wait (st : State (Remote S)),
    1 <= max_wait ->
    (forall r, exists e r', trace_get S trace_id r = (Raised e, r')) ->
    exists st',
      inspect_trace S trace_id max_wait st = (Returned None, st').
Proof.
  intros trace_id max_wait st Hmax Hfail. unfold inspect_trace.
  destruct (Z.to_nat max_wait) as [|remaining] eqn:Hn; [lia|].
  destruct (wait_gives_up trace_id max_wait remaining 0 st Hfail) as [st' [Hw _]];
    [lia|].
  unfold bind. rewrite Hw. exists st'. reflexivity.
Qed.

(** X24.  With a wait of zero or less the loop body never runs and the
    local [trace] is never bound: [inspect_trace] raises
    [UnboundLocalError] without fetching anything. *)
Theorem inspect_trace_without_wait :
  forall trace_id max_wait (st : State (Remote S)),
    max_wait <= 0 ->
    inspect_trace S trace_id max_wait st
    = (Raised (mkExn "UnboundLocalError"
                 "cannot access local variable 'trace' where it is not associated with a value"),
       st).
Proof.
  intros trace_id max_wait st Hmax. unfold inspect_trace.
  replace (Z.to_nat max_wait) with O by lia. reflexivity.
Qed.

(** X25.  When the first fetch succeeds [inspect_trace] does not sleep
    and returns the inspection of the fetched observations, or of no
    observations when the trace object has none. *)
Theorem inspect_trace_first_fetch :
  forall trace_id max_wait (st : State (Remote S)) t r',
    1 <= max_wait ->
    trace_get S trace_id (world st) = (Returned t, r') ->
    inspect_trace S trace_id max_wait st
    = (Returned
         (Some (categorize trace_id
                  match api_observations t with Some l => l | None => [] end)),
       mkState r' (trace st)).
Proof.
  intros trace_id max_wait st t r' Hmax Hget. unfold inspect_trace.
  destruct (Z.to_nat max_wait) as [|remaining] eqn:Hn; [lia|].
  cbn [wait_for_trace]. unfold try_except, bind, request, ret.
  rewrite Hget. reflexivity.
Qed.

End Waiting.

Lemma inspect_trace_gives_up_witness :
  exists st',
    inspect_trace unreachable "t1" 3 (mkState 0 []) = (Returned None, st').
Proof.
  apply (inspect_trace_gives_up unreachable "t1" 3 (mkState 0 [])).
  - lia.
  - intros r. eexists. eexists. reflexivity.
Defined.

Lemma inspect_trace_without_wait_witness :
  inspect_trace playback "t1" 0 (mkState ([Returned sample_trace], 0) [])
  = (Raised (mkExn "UnboundLocalError"
               "cannot access local variable 'trace' where it is not associated with a value"),
     mkState ([Returned sample_trace], 0) []).
Proof.
  apply (inspect_trace_without_wait playback "t1" 0
           (mkState ([Returned sample_trace], 0) [])).
  lia.
Defined.

Lemma inspect_trace_first_fetch_witness :
  inspect_trace playback "t1" 30 (mkState ([Returned sample_trace], 0) [])
  = (Returned
       (Some (mkInspection "t1" 6
                [("SPAN", 2); ("AGENT", 2); ("TOOL", 1); ("unknown", 1)]
                [mkEntry "o2" "call_llm" "AGENT"; mkEntry "o5" "call_llm" "AGENT"]
                [mkEntry "o4" "calculate" "TOOL"])),
     mkState ([], 0) []).
Proof.
  apply (inspect_trace_first_fetch playback "t1" 30
           (mkState ([Returned sample_trace], 0) []) sample_trace ([], 0)).
  - lia.
  - reflexivity.
Defined.

End InspectionFacts.

(* ===================================================================== *)
(** ** The further properties at work on scripted runs *)
(* ===================================================================== *)

Lemma nonpositive_ceiling_makes_no_call_witness :
  Agent.run_agent_conversation Scripted.env "q" "test_user" (Some "s1") (-3)
    (Scripted.start [Scripted.says "never asked"])
  = (Returned
       (Agent.failure_result 0 (VStr "https://cloud.langfuse.com/trace/t1")
          (VStr "t1") "s1",
        Agent.initial_messages "q"),
     mkState [Scripted.says "never asked"] [mkObs SPAN "run_agent"]).
Proof.
  apply (nonpositive_ceiling_makes_no_call Scripted.env "q" "test_user"
           (Some "s1") (-3) (Scripted.start [Scripted.says "never asked"])).
  lia.
Defined.

Lemma iterations_count_model_calls_witness :
  exists result st' k,
    Agent.run_agent Scripted.env "q" "test_user" (Some "s1") 10
      (Scripted.start
         [Scripted.asks [Scripted.call_time; Scripted.call_unknown];
          Scripted.says "done"])
    = (Returned result, st')
    /\ dict_get "iterations" result = Some (VInt (Z.of_nat k))
    /\ count_obs AGENT (trace st') = (0 + k)%nat.
Proof.
  eexists. eexists.
  assert (Hrun : Agent.run_agent Scripted.env "q" "test_user" (Some "s1") 10
                   (Scripted.start
                      [Scripted.asks [Scripted.call_time; Scripted.call_unknown];
                       Scripted.says "done"])
                 = (Returned _, _)) by reflexivity.
  destruct (iterations_count_model_calls Scripted.env _ _ _ _ _ _ _ Hrun)
    as [k [Hi [Hc _]]].
  exists k. split; [exact Hrun|]. split; [exact Hi|exact Hc].
Defined.

Lemma result_carries_session_witness :
  exists result st',
    Agent.run_agent Scripted.env "q" "test_user" None 10
      (Scripted.start [Scripted.says "done"])
    = (Returned result, st')
    /\ dict_get "session_id" result = Some (VStr "123e4567").
Proof.
  eexists. eexists.
  assert (Hrun : Agent.run_agent Scripted.env "q" "test_user" None 10
                   (Scripted.start [Scripted.says "done"])
                 = (Returned _, _)) by reflexivity.
  destruct (result_carries_session Scripted.env _ _ _ _ _ _ _ Hrun)
    as [session [Hs [Heq _]]].
  split; [exact Hrun|]. rewrite Hs, Heq. reflexivity.
Defined.

Lemma conversation_grows_from_query_witness :
  exists result conversation st' added,
    Agent.run_agent_conversation Scripted.env "q" "test_user" (Some "s1") 10
      (Scripted.start
         [Scripted.asks [Scripted.call_time; Scripted.call_unknown];
          Scripted.says "done"])
    = (Returned (result, conversation), st')
    /\ conversation
       = ([("role", VStr "system"); ("content", VStr Agent.system_prompt)]
          :: [("role", VStr "user"); ("content", VStr "q")]
          :: added)
    /\ (List.length (filter (Spec.role_is "tool") conversation) + 0
        = count_named "execute_tool" (trace st'))%nat.
Proof.
  eexists. eexists. eexists.
  assert (Hrun : Agent.run_agent_conversation Scripted.env "q" "test_user"
                   (Some "s1") 10
                   (Scripted.start
                      [Scripted.asks [Scripted.call_time; Scripted.call_unknown];
                       Scripted.says "done"])
                 = (Returned (_, _), _)) by (vm_compute; reflexivity).
  destruct (conversation_grows_from_query Scripted.env _ _ _ _ _ _ _ _ Hrun)
    as [added [Hm [_ Hc]]].
  exists added. split; [exact Hrun|]. split; [exact Hm|exact Hc].
Defined.

Lemma answer_is_last_reply_witness :
  exists result conversation st',
    Agent.run_agent_conversation Scripted.env "q" "test_user" (Some "s1") 10
      (Scripted.start [Scripted.asks [Scripted.call_time]; Scripted.says "done"])
    = (Returned (result, conversation), st')
    /\ dict_get "content" (last conversation [])
       = dict_get "answer" result.
Proof.
  eexists. eexists. eexists.
  assert (Hrun : Agent.run_agent_conversation Scripted.env "q" "test_user"
                   (Some "s1") 10
                   (Scripted.start
                      [Scripted.asks [Scripted.call_time]; Scripted.says "done"])
                 = (Returned (_, _), _)) by (vm_compute; reflexivity).
  destruct (answer_is_last_reply Scripted.env _ _ _ _ _ _ _ _ Hrun eq_refl)
    as [reply [_ [_ [_ H]]]].
  split; [exact Hrun|exact H].
Defined.

Lemma empty_tool_request_continues_witness :
  Agent.loop_body Scripted.env "s1" 1 (Agent.initial_messages "q")
    (Scripted.start [Scripted.asks []])
  = (Returned
       (Agent.Continue
          (Agent.initial_messages "q"
           ++ [Agent.assistant_entry (mkResponse "tool_calls" None (Some []))])),
     mkState [] [mkObs AGENT "call_llm"]).
Proof.
  apply (empty_tool_request_continues Scripted.env "s1" 1
           (Agent.initial_messages "q") (Scripted.start [Scripted.asks []])
           (mkResponse "tool_calls" None (Some [])) []);
    reflexivity.
Defined.

Lemma unserialisable_result_raises_witness :
  Agent.loop_body Main.env_with_complex "s1" 1 (Agent.initial_messages "q")
    (Scripted.start [Scripted.asks [Main.call_complex]])
  = (Raised (mkExn "TypeError" "Object of type complex is not JSON serializable"),
     mkState []
       [mkObs AGENT "call_llm"; mkObs SPAN "execute_tool"; mkObs TOOL "calculate"]).
Proof.
  destruct (unserialisable_result_raises Main.env_with_complex "s1" 1
              (Agent.initial_messages "q")
              (Scripted.start [Scripted.asks [Main.call_complex]])
              (mkResponse "tool_calls" None (Some [Main.call_complex])) []
              Main.call_complex [] "1j" (VOther Complex) (VOther Complex))
    as [e [He Hbody]].
  - reflexivity.
  - reflexivity.
  - reflexivity.
  - reflexivity.
  - reflexivity.
  - reflexivity.
  - reflexivity.
  - rewrite Hbody. inversion He. reflexivity.
Defined.
